(** * gpflow/training/scipy.py: the SciPy optimizer adapter

    A shallow embedding of [ScipyOptimizer] and the proofs of its
    specification.

    Conventions of the embedding.
    - A tensor (a [tf.Tensor], a [tfe.Variable]'s value) is its shape and
      its elements in row-major order.  The elements are copied around and
      never computed with, so their type [V] is left abstract.
    - A rank-1 [np.ndarray] (the flat vector) is the list of its elements.
    - [np.prod(shape)] is the integer number of elements of a shape with
      dimensions, and the float 1.0 of the empty shape of a scalar; a float
      is not accepted as the bound of a slice.
    - The variables handed to [minimize] and [eval_func] are distinct
      mutable objects; their current values are the [variables] field of
      the program state, in the order of the Python list.
    - [loss_gradients] (from [gpflow.training.optimize]), the user's
      closure and step callback and [scipy.optimize.minimize] are not in
      this file of the program: they are parameters of the development. *)

From Stdlib Require Import String.
From Stdlib Require Import List Arith ZArith Lia Bool.
Import ListNotations.
Open Scope string_scope.
Open Scope list_scope.
Open Scope nat_scope.

Set Implicit Arguments.

(** ** Exceptions and fallible computations *)

Section Scipy.

(** Element type of the tensors. *)
Variable V : Type.
(** Exceptions escaping from code outside this file. *)
Variable U : Type.

Inductive exn : Type :=
| ValueError (msg : string)
| TypeError (msg : string)
| InvalidArgumentError
| External (u : U).

Inductive result (A : Type) : Type :=
| Ok (a : A)
| Err (e : exn).
Arguments Err {A} e.

Definition rbind {A B} (r : result A) (k : A -> result B) : result B :=
  match r with
  | Ok a => k a
  | Err e => Err e
  end.

Fixpoint rmap {A B} (f : A -> result B) (l : list A) : result (list B) :=
  match l with
  | [] => Ok []
  | a :: l' =>
      rbind (f a) (fun b => rbind (rmap f l') (fun bs => Ok (b :: bs)))
  end.

(** ** Tensors and the TensorFlow / NumPy operations the file calls *)

Record tensor : Type := mkTensor { shape : list nat; data : list V }.

(** The number of elements of a tensor of shape [s]. *)
Definition num_elements (s : list nat) : nat := fold_right Nat.mul 1 s.

(** The numbers the offsets are made of: Python and NumPy integers, and
    floats, of which only whole ones occur ([Floating n] is [n.0]). *)
Inductive number : Type :=
| Integer (n : nat)
| Floating (n : nat).

(** [a + b]: a float as soon as one of the two is. *)
Definition add (a b : number) : number :=
  match a, b with
  | Integer x, Integer y => Integer (x + y)
  | Integer x, Floating y => Floating (x + y)
  | Floating x, Integer y => Floating (x + y)
  | Floating x, Floating y => Floating (x + y)
  end.

(** [np.prod(shape)]: the product of the dimensions, an integer; of the
    empty shape it is the product of an empty float array, [1.0]. *)
Definition np_prod (s : list nat) : number :=
  match s with
  | [] => Floating 1
  | _ :: _ => Integer (num_elements s)
  end.

(** The invariant of every tensor value: as many elements as its shape
    says. *)
Definition well_shaped (t : tensor) : Prop :=
  length (data t) = num_elements (shape t).

Definition size (t : tensor) : nat := num_elements (shape t).

(** A rank-1 ndarray seen as a tensor, and [tensor.numpy()] of a rank-1
    tensor. *)
Definition of_numpy (v : list V) : tensor :=
  {| shape := [length v]; data := v |}.
Definition numpy (t : tensor) : list V := data t.

Definition slice_error : exn :=
  TypeError "slice indices must be integers".

(** [from_vector[a:b]] for non-negative [a] and [b]: Python clamps both
    ends to the length, and gives the empty array when [b <= a].  A bound
    that is a float raises. *)
Definition np_slice (v : list V) (a b : number) : result (list V) :=
  match a, b with
  | Integer a, Integer b => Ok (firstn (b - a) (skipn a v))
  | _, _ => Err slice_error
  end.

Definition is_wildcard (d : Z) : bool := (d =? -1)%Z.

(** [tf.reshape(t, target)].  One dimension of [target] may be [-1]: it is
    inferred from the number of elements.  The operation raises when the
    element counts disagree. *)
Definition tf_reshape (t : tensor) (target : list Z) : result tensor :=
  let n := Z.of_nat (length (data t)) in
  let known := filter (fun d => negb (is_wildcard d)) target in
  let p := fold_right Z.mul 1%Z known in
  match length target - length known with
  | 0 =>
      if forallb (fun d => (0 <=? d)%Z) target && (p =? n)%Z
      then Ok {| shape := map Z.to_nat target; data := data t |}
      else Err InvalidArgumentError
  | 1 =>
      if forallb (fun d => (0 <=? d)%Z) known
         && negb (p =? 0)%Z && (n mod p =? 0)%Z
      then Ok {| shape := map (fun d => if is_wildcard d
                                        then Z.to_nat (n / p)
                                        else Z.to_nat d) target;
                 data := data t |}
      else Err InvalidArgumentError
  | _ => Err InvalidArgumentError
  end.

Definition shape_eqb (s1 s2 : list nat) : bool :=
  if list_eq_dec Nat.eq_dec s1 s2 then true else false.

(** The shapes of the inputs of a concatenation along axis 0 agree when
    all have rank at least one and the same trailing dimensions. *)
Definition same_trailing (tl : list nat) (u : tensor) : bool :=
  match shape u with
  | [] => false
  | _ :: tl' => shape_eqb tl tl'
  end.

Definition leading (u : tensor) : nat := hd 0 (shape u).

(** [tf.concat(values, axis=0)].  A single value is returned as it is
    ([identity(values[0])]); otherwise the ConcatV2 operation runs, which
    needs at least two inputs: on the empty list it raises. *)
Definition tf_concat (values : list tensor) : result tensor :=
  match values with
  | [] => Err InvalidArgumentError
  | [t] => Ok t
  | t :: _ =>
      match shape t with
      | [] => Err InvalidArgumentError
      | _ :: tl =>
          if forallb (same_trailing tl) values
          then Ok {| shape := list_sum (map leading values) :: tl;
                     data := concat (map data values) |}
          else Err InvalidArgumentError
      end
  end.

(** [variable.assign(value)]: the shapes must agree. *)
Definition assign (variable value : tensor) : result tensor :=
  if shape_eqb (shape variable) (shape value)
  then Ok value
  else Err (ValueError "Shapes are incompatible").

(** ** pack_tensors and unpack_tensors *)

(** [[tf.reshape(tensor, (-1,)) for tensor in tensors]], then
    [tf.concat(flats, axis=0).numpy()]. *)
Definition pack_tensors (tensors : list tensor) : result (list V) :=
  rbind (rmap (fun tensor => tf_reshape tensor [(-1)%Z]) tensors)
    (fun flats =>
       rbind (tf_concat flats)
         (fun tensors_vector => Ok (numpy tensors_vector))).

(** The loop of [unpack_tensors], from offset [s] on.  The tensors are
    assigned in place one after the other: the function returns their
    values when the loop stops, and the exception that stopped it, if
    any.  The tensors before the failing one keep their new values. *)
Fixpoint unpack_from (s : number) (to_tensors : list tensor)
    (from_vector : list V) : list tensor * option exn :=
  match to_tensors with
  | [] => ([], None)
  | tensor :: rest =>
      let shape := shape tensor in
      let tensor_size := np_prod shape in
      match np_slice from_vector s (add s tensor_size) with
      | Err e => (tensor :: rest, Some e)
      | Ok tensor_vector =>
          match tf_reshape (of_numpy tensor_vector) (map Z.of_nat shape) with
          | Err e => (tensor :: rest, Some e)
          | Ok tensor_vector =>
              match assign tensor tensor_vector with
              | Err e => (tensor :: rest, Some e)
              | Ok tensor' =>
                  let (rest', r) :=
                    unpack_from (add s tensor_size) rest from_vector in
                  (tensor' :: rest', r)
              end
          end
      end
  end.

Definition unpack_tensors (to_tensors : list tensor)
    (from_vector : list V) : list tensor * option exn :=
  unpack_from (Integer 0) to_tensors from_vector.

(** The tensors with at least one dimension. *)
Definition ranked (t : tensor) : Prop := shape t <> [].

(** Sum of the element counts of a sequence of tensors. *)
Definition total_size (tensors : list tensor) : nat :=
  list_sum (map size tensors).

(** ** The program state and its effects *)

(** The loss value, the solver's result object and the solver options
    ([**scipy_kwargs]) are passed through untouched. *)
Variable Loss : Type.
Variable OptimizeResult : Type.
Variable Kwargs : Type.
(** Everything else the user's code can read and write. *)
Variable Ext : Type.
(** The function values a loss closure can be. *)
Variable Closure : Type.

(** What code outside this file sees and may change: the values of the
    variables and its own state. *)
Record world : Type := mkWorld { variables : list tensor; ext : Ext }.

(** A call into such code returns or throws, and leaves a world. *)
Inductive returned (A : Type) : Type :=
| Returns (a : A) (w : world)
| Throws (u : U) (w : world).
Arguments Throws {A} u w.

(** A Python argument that is expected to be a function: it may as well
    be [None] or some other object. *)
Inductive pyobj (F : Type) : Type :=
| PyNone
| PyInt (n : Z)
| PyFunction (f : F).
Arguments PyNone {F}.
Arguments PyInt {F} n.

Definition callable {F} (o : pyobj F) : bool :=
  match o with
  | PyFunction _ => true
  | _ => false
  end.

(** [step_callback(loss, variables, grads)]: the variables are passed by
    reference, the callback finds their values in the world. *)
Definition StepCallback : Type :=
  Loss -> list tensor -> world -> returned unit.

(** [loss_gradients(closure, variables)] of [gpflow.training.optimize]:
    the loss and one gradient per variable, at the current values. *)
Variable loss_gradients :
  pyobj Closure -> world -> returned (Loss * list tensor).

(** The external solver, as the strategy it follows: it asks for
    evaluations of [func] at points of its choice and ends with a result or
    an exception.  An exception of [func] is not caught by the solver.  It
    holds no reference to the variables. *)
Inductive solver : Type :=
| Finish (r : OptimizeResult)
| Abort (u : U)
| Evaluate (x : list V) (k : Loss * list V -> solver).

(** [scipy.optimize.minimize(func, x0, jac=..., **kwargs)]. *)
Variable scipy_optimize_minimize : list V -> bool -> Kwargs -> solver.

(** The calls that leave this file, in the order they are made. *)
Inductive event : Type :=
| CalledSolver (x0 : list V) (jac : bool) (kwargs : Kwargs)
| CalledFunc (x : list V)
| CalledLossGradients (vars : list tensor)
| CalledStepCallback (loss : Loss) (vars : list tensor)
    (grads : list tensor).

Record state : Type := mkState { now : world; calls : list event }.

Inductive outcome (A : Type) : Type :=
| Done (a : A) (st : state)
| Raised (e : exn) (st : state).
Arguments Raised {A} e st.

Definition final {A} (o : outcome A) : state :=
  match o with
  | Done _ st => st
  | Raised _ st => st
  end.

Definition M (A : Type) : Type := state -> outcome A.

Definition ret {A} (a : A) : M A := fun st => Done a st.

Definition raise {A} (e : exn) : M A := fun st => Raised e st.

Definition bind {A B} (m : M A) (k : A -> M B) : M B :=
  fun st =>
    match m st with
    | Done a st' => k a st'
    | Raised e st' => Raised e st'
    end.

Notation "x <- m ;; k" := (bind m (fun x => k))
  (at level 61, m at next level, right associativity).
Notation "m ;; k" := (bind m (fun _ => k))
  (at level 61, right associativity).

Definition lift {A} (r : result A) : M A :=
  match r with
  | Ok a => ret a
  | Err e => raise e
  end.

Definition record (ev : event) : M unit :=
  fun st => Done tt (mkState (now st) (calls st ++ [ev])).

Definition external {A} (f : world -> returned A) : M A :=
  fun st =>
    match f (now st) with
    | Returns a w => Done a (mkState w (calls st))
    | Throws u w => Raised (External u) (mkState w (calls st))
    end.

Definition get_variables : M (list tensor) :=
  fun st => Done (variables (now st)) st.

Definition not_callable : exn := TypeError "object is not callable".

(** Calling a Python object. *)
Definition invoke (o : pyobj StepCallback) (loss : Loss)
    (grads : list tensor) : M unit :=
  match o with
  | PyFunction f =>
      vars <- get_variables ;;
      record (CalledStepCallback loss vars grads) ;;
      external (f loss grads)
  | _ => raise not_callable
  end.

Definition call_loss_gradients (closure : pyobj Closure)
    : M (Loss * list tensor) :=
  vars <- get_variables ;;
  record (CalledLossGradients vars) ;;
  external (loss_gradients closure).

(** [cls.unpack_tensors(variables, x)] on the variables of the state. *)
Definition unpack_variables (x : list V) : M unit :=
  fun st =>
    let (vars, r) := unpack_tensors (variables (now st)) x in
    let st' := mkState (mkWorld vars (ext (now st))) (calls st) in
    match r with
    | None => Done tt st'
    | Some e => Raised e st'
    end.

(** ** ScipyOptimizer *)

(** The closure [_eval] that [eval_func] returns. *)
Definition _eval (closure : pyobj Closure)
    (step_callback : pyobj StepCallback) (x : list V)
    : M (Loss * list V) :=
  unpack_variables x ;;
  lg <- call_loss_gradients closure ;;
  let (loss, grads) := lg in
  (if callable step_callback
   then invoke step_callback loss grads
   else ret tt) ;;
  packed <- lift (pack_tensors grads) ;;
  ret (loss, packed).

Definition eval_func (closure : pyobj Closure)
    (step_callback : pyobj StepCallback)
    : list V -> M (Loss * list V) :=
  _eval closure step_callback.

Definition initial_parameters : M (list V) :=
  vars <- get_variables ;;
  lift (pack_tensors vars).

(** The solver at work: each evaluation it asks for is a call of [func]. *)
Fixpoint drive (s : solver) (func : list V -> M (Loss * list V))
    : M OptimizeResult :=
  match s with
  | Finish r => ret r
  | Abort u => raise (External u)
  | Evaluate x k =>
      y <- (record (CalledFunc x) ;; func x) ;;
      drive (k y) func
  end.

Definition call_solver (func : list V -> M (Loss * list V))
    (x0 : list V) (jac : bool) (kwargs : Kwargs) : M OptimizeResult :=
  record (CalledSolver x0 jac kwargs) ;;
  drive (scipy_optimize_minimize x0 jac kwargs) func.

Definition callable_expected : exn :=
  ValueError "Callable object expected.".

Definition minimize (closure : pyobj Closure)
    (step_callback : pyobj StepCallback) (scipy_kwargs : Kwargs)
    : M OptimizeResult :=
  if negb (callable closure)
  then raise callable_expected
  else
    initial_params <- initial_parameters ;;
    let func := eval_func closure step_callback in
    call_solver func initial_params true scipy_kwargs.

(** ** The specification's flatten and unflatten *)

(** The flat vector of a sequence of tensors: their elements, in
    concatenation order. *)
Definition flatten (tensors : list tensor) : list V :=
  concat (map data tensors).

(** Contiguous runs of a vector, sized and shaped by a list of shapes. *)
Fixpoint unflatten (shapes : list (list nat)) (v : list V) : list tensor :=
  match shapes with
  | [] => []
  | s :: rest =>
      {| shape := s; data := firstn (num_elements s) v |}
        :: unflatten rest (skipn (num_elements s) v)
  end.

(** unflatten(flatten(tensors)): unpacking the packed vector into tensors
    of these shapes, whatever they hold, gives the tensors back. *)
Definition unpack_pack_restores (tensors : list tensor) : Prop :=
  exists packed,
    pack_tensors tensors = Ok packed /\
    forall to_tensors,
      map (@shape) to_tensors = map (@shape) tensors ->
      unpack_tensors to_tensors packed = (tensors, None).

(** flatten(unflatten(v)): packing the tensors after [v] was unpacked
    into them gives [v] back. *)
Definition pack_unpack_restores (tensors : list tensor) (v : list V)
    : Prop :=
  exists tensors',
    unpack_tensors tensors v = (tensors', None) /\
    map (@shape) tensors' = map (@shape) tensors /\
    pack_tensors tensors' = Ok v.

(** [pack_tensors] builds a rank-1 tensor of all the elements, in
    order, and returns its array. *)
Definition packs_flat (tensors : list tensor) : Prop :=
  exists flats tensors_vector,
    rmap (fun tensor => tf_reshape tensor [(-1)%Z]) tensors = Ok flats /\
    tf_concat flats = Ok tensors_vector /\
    shape tensors_vector = [total_size tensors] /\
    numpy tensors_vector = flatten tensors /\
    pack_tensors tensors = Ok (flatten tensors).

(** [unpack_tensors] stops on an exception. *)
Definition unpack_fails (tensors : list tensor) (v : list V) : Prop :=
  exists e, snd (unpack_tensors tensors v) = Some e.

(** The four steps of one evaluation, as the specification lists them. *)
Definition eval_spec (closure : pyobj Closure)
    (step_callback : pyobj StepCallback) (x : list V)
    : M (Loss * list V) :=
  fun st =>
    (* (1) the candidate vector is unpacked into the parameter tensors *)
    let params := unflatten (map (@shape) (variables (now st))) x in
    let w1 := mkWorld params (ext (now st)) in
    (* (2) the loss and gradients are computed at these parameters *)
    let log1 := calls st ++ [CalledLossGradients params] in
    match loss_gradients closure w1 with
    | Throws u w2 => Raised (External u) (mkState w2 log1)
    | Returns (loss, grads) w2 =>
        (* (3) the observer, if there is one, is called *)
        let observed :=
          match step_callback with
          | PyFunction f =>
              let log2 :=
                log1 ++ [CalledStepCallback loss (variables w2) grads] in
              match f loss grads w2 with
              | Throws u w3 => Raised (External u) (mkState w3 log2)
              | Returns _ w3 => Done tt (mkState w3 log2)
              end
          | _ => Done tt (mkState w2 log1)
          end in
        (* (4) the gradients are packed into a flat vector, returned with
           the loss *)
        match observed with
        | Raised e st3 => Raised e st3
        | Done _ st3 => Done (loss, flatten grads) st3
        end
    end.

(** The points at which the solver asked for an evaluation. *)
Fixpoint last_evaluated (evs : list event) : option (list V) :=
  match evs with
  | [] => None
  | ev :: rest =>
      match last_evaluated rest, ev with
      | Some x, _ => Some x
      | None, CalledFunc x => Some x
      | None, _ => None
      end
  end.

Definition is_step_callback (ev : event) : bool :=
  match ev with
  | CalledStepCallback _ _ _ => true
  | _ => false
  end.

Definition is_solver_call (ev : event) : bool :=
  match ev with
  | CalledSolver _ _ _ => true
  | CalledFunc _ => true
  | _ => false
  end.

(** Code outside this file that does not assign to the variables. *)
Definition keeps_variables {A} (f : world -> returned A) : Prop :=
  forall w a w', f w = Returns a w' -> variables w' = variables w.

Definition callback_keeps_variables (o : pyobj StepCallback) : Prop :=
  match o with
  | PyFunction f => forall loss grads, keeps_variables (f loss grads)
  | _ => True
  end.

Definition world_after {A} (r : returned A) : world :=
  match r with
  | Returns _ w => w
  | Throws _ w => w
  end.

(** [minimize] hands the packed variables, [jac=True] and the options to
    the solver, and its outcome is the solver's. *)
Definition delegates_to_solver (closure : pyobj Closure)
    (step_callback : pyobj StepCallback) (scipy_kwargs : Kwargs)
    (st : state) : Prop :=
  let x0 := flatten (variables (now st)) in
  initial_parameters st = Done x0 st /\
  minimize closure step_callback scipy_kwargs st =
  drive (scipy_optimize_minimize x0 true scipy_kwargs)
    (eval_func closure step_callback)
    (mkState (now st) (calls st ++ [CalledSolver x0 true scipy_kwargs])).

(** The exceptions that come from the TensorFlow operations or from the
    code outside this file. *)
Definition from_below (e : exn) : Prop :=
  e = InvalidArgumentError \/ e = slice_error \/ exists u, e = External u.

(** How often a kind of call occurs in a log. *)
Definition count_calls (kind : event -> bool) (evs : list event) : nat :=
  length (filter kind evs).

Definition is_minimize_call (ev : event) : bool :=
  match ev with
  | CalledSolver _ _ _ => true
  | _ => false
  end.

Definition is_func_call (ev : event) : bool :=
  match ev with
  | CalledFunc _ => true
  | _ => false
  end.

Definition is_loss_gradients_call (ev : event) : bool :=
  match ev with
  | CalledLossGradients _ => true
  | _ => false
  end.

(** ** Facts about the TensorFlow operations *)

Lemma tensor_eta (t : tensor) : {| shape := shape t; data := data t |} = t.
Proof. destruct t; reflexivity. Qed.

Lemma shape_eqb_refl (s : list nat) : shape_eqb s s = true.
Proof. unfold shape_eqb. destruct (list_eq_dec Nat.eq_dec s s); congruence. Qed.

Lemma tf_reshape_flat (t : tensor) :
  tf_reshape t [(-1)%Z] = Ok (of_numpy (data t)).
Proof.
  unfold tf_reshape, of_numpy; cbn.
  rewrite Z.mod_1_r, Z.div_1_r, Nat2Z.id. reflexivity.
Qed.

Lemma known_of_nat (s : list nat) :
  filter (fun d => negb (is_wildcard d)) (map Z.of_nat s) = map Z.of_nat s.
Proof.
  induction s as [|d s IH]; cbn; [reflexivity|].
  unfold is_wildcard at 1.
  destruct (Z.eqb_spec (Z.of_nat d) (-1)); [lia|]. cbn. now rewrite IH.
Qed.

Lemma nonneg_of_nat (s : list nat) :
  forallb (fun d => (0 <=? d)%Z) (map Z.of_nat s) = true.
Proof.
  induction s as [|d s IH]; cbn; [reflexivity|].
  rewrite IH, andb_true_r. apply Z.leb_le. lia.
Qed.

Lemma prod_of_nat (s : list nat) :
  fold_right Z.mul 1%Z (map Z.of_nat s) = Z.of_nat (num_elements s).
Proof.
  induction s as [|d s IH]; cbn; [reflexivity|].
  rewrite IH. unfold num_elements. lia.
Qed.

Lemma to_nat_of_nat (s : list nat) : map Z.to_nat (map Z.of_nat s) = s.
Proof.
  induction s as [|d s IH]; cbn; [reflexivity|].
  now rewrite Nat2Z.id, IH.
Qed.

Lemma tf_reshape_shape (v : list V) (s : list nat) :
  tf_reshape (of_numpy v) (map Z.of_nat s) =
  if length v =? num_elements s
  then Ok {| shape := s; data := v |}
  else Err InvalidArgumentError.
Proof.
  unfold tf_reshape. rewrite known_of_nat, Nat.sub_diag, nonneg_of_nat.
  rewrite prod_of_nat, to_nat_of_nat. cbn.
  destruct (Nat.eqb_spec (length v) (num_elements s)) as [E|E].
  - rewrite E, Z.eqb_refl. reflexivity.
  - destruct (Z.eqb_spec (Z.of_nat (num_elements s)) (Z.of_nat (length v)));
      [lia|reflexivity].
Qed.

Lemma rmap_reshape_flat (tensors : list tensor) :
  rmap (fun tensor => tf_reshape tensor [(-1)%Z]) tensors =
  Ok (map (fun t => of_numpy (data t)) tensors).
Proof.
  induction tensors as [|t ts IH]; [reflexivity|].
  cbn [rmap map]. rewrite tf_reshape_flat, IH. reflexivity.
Qed.

Lemma same_trailing_flats (tensors : list tensor) :
  forallb (same_trailing []) (map (fun t => of_numpy (data t)) tensors) = true.
Proof. induction tensors; cbn; auto. Qed.

Lemma leading_flats (tensors : list tensor) :
  list_sum (map (@leading) (map (fun t => of_numpy (data t)) tensors)) =
  length (flatten tensors).
Proof.
  unfold flatten.
  induction tensors as [|t ts IH]; [reflexivity|].
  cbn [map concat list_sum]. rewrite length_app, <- IH. reflexivity.
Qed.

Lemma data_flats (tensors : list tensor) :
  map (@data) (map (fun t => of_numpy (data t)) tensors) = map (@data) tensors.
Proof. rewrite map_map. reflexivity. Qed.

(** The concatenation of one or more flattened tensors is the rank-1
    tensor of all their elements. *)
Lemma tf_concat_flats (tensors : list tensor) :
  tensors <> [] ->
  tf_concat (map (fun t => of_numpy (data t)) tensors) =
  Ok (of_numpy (flatten tensors)).
Proof.
  destruct tensors as [|t [|t' ts]]; [congruence| |]; intros _.
  - cbn. unfold flatten; cbn. now rewrite app_nil_r.
  - remember (t' :: ts) as rest.
    assert (E : map (fun t => of_numpy (data t)) (t :: rest) =
                of_numpy (data t) :: of_numpy (data t')
                  :: map (fun t => of_numpy (data t)) ts)
      by (subst; reflexivity).
    rewrite E. unfold tf_concat. cbn [shape of_numpy].
    rewrite <- E, same_trailing_flats, leading_flats, data_flats.
    reflexivity.
Qed.

Lemma pack_tensors_flatten (tensors : list tensor) :
  tensors <> [] -> pack_tensors tensors = Ok (flatten tensors).
Proof.
  intros H. unfold pack_tensors.
  rewrite rmap_reshape_flat. cbn [rbind].
  rewrite (tf_concat_flats H). reflexivity.
Qed.

Lemma pack_tensors_nil : pack_tensors [] = Err InvalidArgumentError.
Proof. reflexivity. Qed.

(** ** Facts about flatten, unflatten and the unpacking loop *)

Lemma list_sum_cons (a : nat) (l : list nat) :
  list_sum (a :: l) = a + list_sum l.
Proof. reflexivity. Qed.

Lemma total_size_shapes (tensors : list tensor) :
  total_size tensors = list_sum (map num_elements (map (@shape) tensors)).
Proof. unfold total_size, size. now rewrite map_map. Qed.

Lemma length_flatten (tensors : list tensor) :
  Forall well_shaped tensors -> length (flatten tensors) = total_size tensors.
Proof.
  unfold flatten, total_size.
  induction 1 as [|t ts Ht _ IH]; [reflexivity|].
  cbn. rewrite length_app, IH, Ht. reflexivity.
Qed.

Lemma shape_unflatten (shapes : list (list nat)) (v : list V) :
  map (@shape) (unflatten shapes v) = shapes.
Proof.
  revert v. induction shapes as [|s rest IH]; intros v; cbn;
    [reflexivity | now rewrite IH].
Qed.

Lemma flatten_unflatten (shapes : list (list nat)) (v : list V) :
  list_sum (map num_elements shapes) <= length v ->
  flatten (unflatten shapes v) = firstn (list_sum (map num_elements shapes)) v.
Proof.
  unfold flatten. revert v.
  induction shapes as [|s rest IH]; intros v H; [reflexivity|].
  cbn [map unflatten concat data] in *. rewrite list_sum_cons in *.
  rewrite IH by (rewrite length_skipn; lia).
  rewrite <- (firstn_skipn (num_elements s) v) at 3.
  rewrite firstn_app, firstn_firstn, length_firstn.
  f_equal.
  - f_equal. lia.
  - f_equal. lia.
Qed.

Lemma unflatten_flatten (tensors : list tensor) (tail : list V) :
  Forall well_shaped tensors ->
  unflatten (map (@shape) tensors) (flatten tensors ++ tail) = tensors.
Proof.
  unfold flatten.
  induction 1 as [|t ts Ht _ IH]; [reflexivity|].
  cbn. rewrite <- app_assoc, <- Ht.
  rewrite firstn_app, firstn_all, Nat.sub_diag, firstn_O, app_nil_r.
  rewrite skipn_app, skipn_all, Nat.sub_diag, skipn_O, app_nil_l.
  rewrite IH. f_equal. apply tensor_eta.
Qed.

Lemma unflatten_nonempty (shapes : list (list nat)) (v : list V) :
  shapes <> [] -> unflatten shapes v <> [].
Proof. destruct shapes; cbn; congruence. Qed.

Lemma np_slice_from (v : list V) (s n : nat) :
  np_slice v (Integer s) (Integer (s + n)) = Ok (firstn n (skipn s v)).
Proof. unfold np_slice. do 2 f_equal. lia. Qed.

Lemma np_prod_ranked (t : tensor) :
  ranked t -> np_prod (shape t) = Integer (size t).
Proof. unfold ranked, size. destruct (shape t); [congruence|reflexivity]. Qed.

Lemma ranked_shapes (tensors : list tensor) :
  Forall ranked tensors <->
  Forall (fun s => s <> []) (map (@shape) tensors).
Proof. rewrite Forall_map. reflexivity. Qed.

Lemma ranked_same_shapes (a b : list tensor) :
  map (@shape) a = map (@shape) b ->
  Forall ranked a -> Forall ranked b.
Proof. rewrite !ranked_shapes. now intros ->. Qed.

Lemma ranked_unflatten (tensors : list tensor) (v : list V) :
  Forall ranked tensors ->
  Forall ranked (unflatten (map (@shape) tensors) v).
Proof. rewrite !ranked_shapes. now rewrite shape_unflatten. Qed.

Lemma ranked_or_scalar (tensors : list tensor) :
  Forall ranked tensors \/ Exists (fun t => shape t = []) tensors.
Proof.
  induction tensors as [|t ts [IH|IH]].
  - left. constructor.
  - destruct (shape t) as [|d tl] eqn:E.
    + right. now left.
    + left. constructor; [unfold ranked; congruence | exact IH].
  - right. now right.
Qed.

(** One turn of the loop at a scalar: the size is a float, and so is the
    end of the slice. *)
Lemma unpack_from_cons_scalar (s : number) (t : tensor)
    (rest : list tensor) (v : list V) :
  shape t = [] ->
  unpack_from s (t :: rest) v = (t :: rest, Some slice_error).
Proof.
  intros E. cbn [unpack_from]. rewrite E. cbn [np_prod].
  destruct s; reflexivity.
Qed.

(** One turn of the loop, when the slice has as many elements as the
    tensor. *)
Lemma unpack_from_cons_fits (s : nat) (t : tensor) (rest : list tensor)
    (v : list V) :
  ranked t ->
  s + size t <= length v ->
  unpack_from (Integer s) (t :: rest) v =
  ({| shape := shape t; data := firstn (size t) (skipn s v) |}
     :: fst (unpack_from (Integer (s + size t)) rest v),
   snd (unpack_from (Integer (s + size t)) rest v)).
Proof.
  intros Hr H. cbn [unpack_from]. rewrite (np_prod_ranked Hr). cbn [add].
  rewrite np_slice_from, tf_reshape_shape. unfold size in *.
  rewrite length_firstn, length_skipn.
  replace (Nat.min _ _ =? _) with true by (symmetry; apply Nat.eqb_eq; lia).
  unfold assign. cbn [shape]. rewrite shape_eqb_refl.
  destruct (unpack_from _ rest v); reflexivity.
Qed.

(** One turn of the loop, when the vector ends before the slice does. *)
Lemma unpack_from_cons_short (s : nat) (t : tensor) (rest : list tensor)
    (v : list V) :
  ranked t ->
  s <= length v ->
  length v < s + size t ->
  unpack_from (Integer s) (t :: rest) v =
  (t :: rest, Some InvalidArgumentError).
Proof.
  intros Hr Hs H. cbn [unpack_from]. rewrite (np_prod_ranked Hr). cbn [add].
  rewrite np_slice_from, tf_reshape_shape. unfold size in *.
  rewrite length_firstn, length_skipn.
  replace (Nat.min _ _ =? _) with false by (symmetry; apply Nat.eqb_neq; lia).
  reflexivity.
Qed.

Lemma unpack_from_fits (tensors : list tensor) (s : nat) (v : list V) :
  Forall ranked tensors ->
  s + total_size tensors <= length v ->
  unpack_from (Integer s) tensors v =
  (unflatten (map (@shape) tensors) (skipn s v), None).
Proof.
  unfold total_size. intros Hr. revert s.
  induction Hr as [|t ts Ht _ IH]; intros s H; [reflexivity|].
  cbn [map] in H. rewrite list_sum_cons in H.
  rewrite unpack_from_cons_fits by (assumption || lia).
  rewrite IH by lia. cbn [fst snd map unflatten].
  rewrite skipn_skipn. unfold size.
  now rewrite (Nat.add_comm (num_elements (shape t)) s).
Qed.

(** Where and how the loop stops when it does not reach the end: at the
    first tensor that is a scalar or that the vector cannot fill. *)
Lemma unpack_from_stops (tensors : list tensor) (s : nat) (v : list V) :
  s <= length v ->
  length v < s + total_size tensors \/
    Exists (fun t => shape t = []) tensors ->
  exists k e,
    k < length tensors /\
    (e = InvalidArgumentError \/ e = slice_error) /\
    (Forall ranked tensors -> e = InvalidArgumentError) /\
    unpack_from (Integer s) tensors v =
    (unflatten (map (@shape) (firstn k tensors)) (skipn s v)
       ++ skipn k tensors,
     Some e).
Proof.
  unfold total_size. revert s.
  induction tensors as [|t ts IH]; intros s Hs H; cbn [map] in H.
  - destruct H as [H|H]; [cbn in H; lia | inversion H].
  - rewrite list_sum_cons in H.
    destruct (shape t) as [|d tl] eqn:Esh.
    { exists 0, slice_error. split; [cbn; lia|]. split; [now right|].
      split.
      - intros Hr. inversion Hr as [|? ? Ht _]. now elim Ht.
      - now rewrite unpack_from_cons_scalar. }
    assert (Hr : ranked t) by (unfold ranked; congruence).
    destruct (le_lt_dec (s + size t) (length v)) as [Hfit|Hshort].
    + destruct (IH (s + size t)) as (k & e & Hk & He & Hre & E); [lia| |].
      { destruct H as [H|H]; [left; lia|].
        inversion H as [? ? Ht|? ? Hts]; [congruence | now right]. }
      exists (S k), e. split; [cbn; lia|]. split; [exact He|]. split.
      * intros Hall. apply Hre. now inversion Hall.
      * rewrite unpack_from_cons_fits by assumption.
        rewrite E. cbn [fst snd firstn skipn map unflatten].
        rewrite skipn_skipn. unfold size.
        replace (num_elements (shape t) + s)
          with (s + num_elements (shape t)) by lia.
        reflexivity.
    + exists 0, InvalidArgumentError. split; [cbn; lia|].
      split; [now left|]. split; [reflexivity|].
      now rewrite unpack_from_cons_short.
Qed.

(** What unpacking does depends on the shapes of the tensors only. *)
Lemma unpack_tensors_fits (tensors : list tensor) (v : list V) :
  Forall ranked tensors ->
  total_size tensors <= length v ->
  unpack_tensors tensors v = (unflatten (map (@shape) tensors) v, None).
Proof.
  intros Hr H. unfold unpack_tensors. now rewrite unpack_from_fits.
Qed.

Lemma unpack_tensors_stops (tensors : list tensor) (v : list V) :
  length v < total_size tensors \/
    Exists (fun t => shape t = []) tensors ->
  exists k e,
    k < length tensors /\
    (e = InvalidArgumentError \/ e = slice_error) /\
    (Forall ranked tensors -> e = InvalidArgumentError) /\
    unpack_tensors tensors v =
    (unflatten (map (@shape) (firstn k tensors)) v ++ skipn k tensors,
     Some e).
Proof.
  intros H.
  destruct (@unpack_from_stops tensors 0 v) as (k & e & Hk & He & Hr & E);
    [lia | exact H |].
  exists k, e. now rewrite skipn_O in E.
Qed.

Lemma unpack_tensors_ok_ranked (tensors tensors' : list tensor)
    (v : list V) :
  unpack_tensors tensors v = (tensors', None) -> Forall ranked tensors.
Proof.
  intros E. destruct (ranked_or_scalar tensors) as [|H]; [assumption|].
  destruct (@unpack_tensors_stops tensors v) as (k & e & _ & _ & _ & E');
    [now right|].
  rewrite E' in E. discriminate.
Qed.

Lemma unpack_tensors_ok_fits (tensors tensors' : list tensor) (v : list V) :
  unpack_tensors tensors v = (tensors', None) ->
  total_size tensors <= length v.
Proof.
  intros E. destruct (le_lt_dec (total_size tensors) (length v)) as [|H];
    [assumption|].
  destruct (@unpack_tensors_stops tensors v) as (k & e & _ & _ & _ & E');
    [now left|].
  rewrite E' in E. discriminate.
Qed.

Lemma unpack_tensors_ok (tensors tensors' : list tensor) (v : list V) :
  unpack_tensors tensors v = (tensors', None) ->
  tensors' = unflatten (map (@shape) tensors) v.
Proof.
  intros E. pose proof (unpack_tensors_ok_ranked _ _ E) as Hr.
  pose proof (unpack_tensors_ok_fits _ _ E) as H.
  rewrite unpack_tensors_fits in E by assumption. congruence.
Qed.

(** ** pack_tensors and unpack_tensors are inverse of each other *)

(** C1 (as amended).  For every non-empty sequence of tensors of rank at
    least one, unpacking the packed vector restores each tensor's shape
    and values, and for every vector of the total length, packing after
    unpacking gives the vector back. *)
Theorem pack_unpack_roundtrip (tensors : list tensor) (v : list V) :
  tensors <> [] ->
  Forall ranked tensors ->
  Forall well_shaped tensors ->
  length v = total_size tensors ->
  unpack_pack_restores tensors /\ pack_unpack_restores tensors v.
Proof.
  intros Hne Hr Hws Hlen. split.
  - exists (flatten tensors). split; [now apply pack_tensors_flatten|].
    intros to_tensors Hsh.
    rewrite unpack_tensors_fits.
    + rewrite Hsh, <- (app_nil_r (flatten tensors)).
      now rewrite unflatten_flatten.
    + apply (@ranked_same_shapes tensors to_tensors);
        [now symmetry | exact Hr].
    + rewrite total_size_shapes, Hsh, <- total_size_shapes.
      now rewrite length_flatten.
  - exists (unflatten (map (@shape) tensors) v). split; [|split].
    + apply unpack_tensors_fits; [exact Hr | lia].
    + apply shape_unflatten.
    + rewrite pack_tensors_flatten.
      * rewrite flatten_unflatten by (rewrite <- total_size_shapes; lia).
        rewrite <- total_size_shapes, <- Hlen. now rewrite firstn_all.
      * apply unflatten_nonempty. destruct tensors; cbn; congruence.
Qed.

(** C2 (as amended).  For every non-empty sequence of tensors,
    [pack_tensors] returns a one-dimensional vector of as many elements as
    the tensors have together, laid out in concatenation order; for the
    shapes (2,2) and (3,) the length is 7, and unpacking a vector of length
    7 leaves tensors of shapes (2,2) and (3,). *)
Theorem pack_tensors_layout (tensors : list tensor) :
  tensors <> [] ->
  Forall well_shaped tensors ->
  packs_flat tensors /\
  length (flatten tensors) = total_size tensors /\
  (map (@shape) tensors = [[2; 2]; [3]] ->
   length (flatten tensors) = 7 /\
   forall v, length v = 7 ->
     exists a b,
       unpack_tensors tensors v = ([a; b], None) /\
       shape a = [2; 2] /\ shape b = [3]).
Proof.
  intros Hne Hws.
  assert (Hlen : length (flatten tensors) = total_size tensors)
    by now apply length_flatten.
  split; [|split; [exact Hlen|]].
  - exists (map (fun t => of_numpy (data t)) tensors),
      (of_numpy (flatten tensors)).
    repeat split.
    + apply rmap_reshape_flat.
    + now apply tf_concat_flats.
    + cbn. now rewrite Hlen.
    + now apply pack_tensors_flatten.
  - intros Hsh.
    assert (Htot : total_size tensors = 7)
      by (rewrite total_size_shapes, Hsh; reflexivity).
    split; [lia|]. intros v Hv.
    assert (Hr : Forall ranked tensors)
      by (rewrite ranked_shapes, Hsh; repeat constructor; discriminate).
    rewrite unpack_tensors_fits by (assumption || lia).
    rewrite Hsh. cbn [unflatten].
    eexists _, _. repeat split.
Qed.

(** C7 (as amended).  For every flat vector shorter than the sum of the
    tensors' element counts, [unpack_tensors] raises: the tensors before
    the one it stops at have been assigned, that one and those after it
    have not.  When every tensor has rank at least one, it stops at the
    first tensor the vector cannot fill, on the InvalidArgumentError of the
    reshape, and a vector at least as long as the sum is accepted: every
    tensor is assigned from its first elements. *)
Theorem unpack_short_vector_fails (tensors : list tensor) (v : list V) :
  (length v < total_size tensors ->
   unpack_fails tensors v /\
   (Forall ranked tensors ->
    snd (unpack_tensors tensors v) = Some InvalidArgumentError) /\
   exists k,
     k < length tensors /\
     fst (unpack_tensors tensors v) =
     unflatten (map (@shape) (firstn k tensors)) v ++ skipn k tensors) /\
  (Forall ranked tensors ->
   total_size tensors <= length v ->
   unpack_tensors tensors v = (unflatten (map (@shape) tensors) v, None)).
Proof.
  split; [|apply unpack_tensors_fits].
  intros H.
  destruct (@unpack_tensors_stops tensors v) as (k & e & Hk & _ & Hr & E);
    [now left|].
  unfold unpack_fails. rewrite E. cbn [fst snd].
  split; [now exists e|]. split; [|now exists k].
  intros Hall. now rewrite (Hr Hall).
Qed.

(** ** One evaluation *)

(** What is left of an evaluation once the loss and gradients are there:
    the observer and the packing of the gradients. *)
Lemma eval_unfold (closure : pyobj Closure)
    (step_callback : pyobj StepCallback) (x : list V) (st : state) :
  _eval closure step_callback x st =
  let (vars, r) := unpack_tensors (variables (now st)) x in
  let w1 := mkWorld vars (ext (now st)) in
  match r with
  | Some e => Raised e (mkState w1 (calls st))
  | None =>
      let log1 := calls st ++ [CalledLossGradients vars] in
      match loss_gradients closure w1 with
      | Throws u w2 => Raised (External u) (mkState w2 log1)
      | Returns (loss, grads) w2 =>
          match step_callback with
          | PyFunction f =>
              let log2 :=
                log1 ++ [CalledStepCallback loss (variables w2) grads] in
              match f loss grads w2 with
              | Throws u w3 => Raised (External u) (mkState w3 log2)
              | Returns _ w3 =>
                  match pack_tensors grads with
                  | Ok packed => Done (loss, packed) (mkState w3 log2)
                  | Err e => Raised e (mkState w3 log2)
                  end
              end
          | _ =>
              match pack_tensors grads with
              | Ok packed => Done (loss, packed) (mkState w2 log1)
              | Err e => Raised e (mkState w2 log1)
              end
          end
      end
  end.
Proof.
  cbv [_eval bind unpack_variables call_loss_gradients get_variables record
       external].
  destruct (unpack_tensors (variables (now st)) x) as [vars [e|]];
    [reflexivity|].
  cbn [now calls].
  destruct (loss_gradients closure _) as [[loss grads] w2|u w2];
    [|reflexivity].
  destruct step_callback as [| n |f];
    cbv [callable invoke bind get_variables record external ret lift raise];
    cbn [now calls].
  - destruct (pack_tensors grads); reflexivity.
  - destruct (pack_tensors grads); reflexivity.
  - destruct (f loss grads w2) as [[] w3|u w3]; [|reflexivity].
    cbn [now calls]. destruct (pack_tensors grads); reflexivity.
Qed.

(** C4 (as amended).  For every candidate vector of the total length,
    when the variables have rank at least one and the loss computation
    returns at least one gradient, a call of the evaluation closure unpacks
    the vector into the parameter tensors, computes the loss and gradients
    at these parameters, calls the observer if there is one with the loss,
    the parameters and the gradients, and returns the loss with the flat
    vector of the gradients, in this order. *)
Theorem eval_steps (closure : pyobj Closure)
    (step_callback : pyobj StepCallback) (x : list V) (st : state) :
  Forall ranked (variables (now st)) ->
  length x = total_size (variables (now st)) ->
  (forall loss w2,
     loss_gradients closure
       (mkWorld (unflatten (map (@shape) (variables (now st))) x)
          (ext (now st)))
     <> Returns (loss, []) w2) ->
  _eval closure step_callback x st = eval_spec closure step_callback x st.
Proof.
  intros Hr Hlen Hgrads. rewrite eval_unfold. unfold eval_spec.
  rewrite unpack_tensors_fits by (assumption || lia). cbv zeta.
  destruct (loss_gradients closure _) as [[loss grads] w2|u w2] eqn:E;
    [|reflexivity].
  assert (Hne : grads <> []) by (intros ->; exact (Hgrads _ _ eq_refl)).
  rewrite (pack_tensors_flatten Hne).
  destruct step_callback as [| n |f]; try reflexivity.
  destruct (f loss grads w2) as [[] w3|u w3]; reflexivity.
Qed.

(** C5.  When a step callback is supplied, an evaluation that gets as far
    as the loss and gradients calls it exactly once, with the loss and
    gradients computed in this evaluation at the parameters just unpacked
    from the candidate vector. *)
Theorem step_callback_once (closure : pyobj Closure) (f : StepCallback)
    (x : list V) (st : state) (vars : list tensor) (loss : Loss)
    (grads : list tensor) (w2 : world) :
  unpack_tensors (variables (now st)) x = (vars, None) ->
  loss_gradients closure (mkWorld vars (ext (now st))) =
    Returns (loss, grads) w2 ->
  let st' := final (_eval closure (PyFunction f) x st) in
  calls st' =
    calls st ++ [CalledLossGradients vars;
                 CalledStepCallback loss (variables w2) grads] /\
  now st' = world_after (f loss grads w2).
Proof.
  intros Hun Hlg. rewrite eval_unfold, Hun. cbv beta iota zeta.
  rewrite Hlg, <- app_assoc. cbn [app].
  destruct (f loss grads w2) as [[] w3|u w3]; cbn [world_after].
  - destruct (pack_tensors grads); cbn; auto.
  - cbn; auto.
Qed.

(** C8.  An error raised by the loss and gradient computation or by the
    observer leaves the evaluation closure as it is, after the one call
    that raised it: nothing is caught, repeated or repaired. *)
Theorem eval_errors_propagate (closure : pyobj Closure)
    (step_callback : pyobj StepCallback) (x : list V) (st : state)
    (vars : list tensor) :
  unpack_tensors (variables (now st)) x = (vars, None) ->
  let w1 := mkWorld vars (ext (now st)) in
  (forall u w2,
     loss_gradients closure w1 = Throws u w2 ->
     _eval closure step_callback x st =
     Raised (External u)
       (mkState w2 (calls st ++ [CalledLossGradients vars]))) /\
  (forall loss grads w2 f u w3,
     loss_gradients closure w1 = Returns (loss, grads) w2 ->
     step_callback = PyFunction f ->
     f loss grads w2 = Throws u w3 ->
     _eval closure step_callback x st =
     Raised (External u)
       (mkState w3
          (calls st ++ [CalledLossGradients vars;
                        CalledStepCallback loss (variables w2) grads]))).
Proof.
  intros Hun w1. split.
  - intros u w2 Hlg. rewrite eval_unfold, Hun. cbv beta iota zeta.
    fold w1. now rewrite Hlg.
  - intros loss grads w2 f u w3 Hlg -> Hf. rewrite eval_unfold, Hun.
    cbv beta iota zeta. fold w1. rewrite Hlg, Hf, <- app_assoc.
    reflexivity.
Qed.

(** The solver's run depends on what [func] does, not on what it is. *)
Lemma drive_ext (s : solver) (func func' : list V -> M (Loss * list V)) :
  (forall x st, func x st = func' x st) ->
  forall st, drive s func st = drive s func' st.
Proof.
  intros Hext. induction s as [r|u|x k IH]; intros st; try reflexivity.
  cbn [drive]. cbv [bind record]. rewrite Hext.
  destruct (func' x _) as [y st1|e st1]; [apply IH | reflexivity].
Qed.

(** ** minimize *)

Lemma pack_tensors_exn (tensors : list tensor) (e : exn) :
  pack_tensors tensors = Err e -> e = InvalidArgumentError.
Proof.
  destruct tensors as [|t ts].
  - cbn. congruence.
  - rewrite pack_tensors_flatten; discriminate.
Qed.

Lemma unpack_tensors_exn (tensors tensors' : list tensor) (v : list V)
    (e : exn) :
  unpack_tensors tensors v = (tensors', Some e) ->
  e = InvalidArgumentError \/ e = slice_error.
Proof.
  destruct (ranked_or_scalar tensors) as [Hr|Hs].
  - destruct (le_lt_dec (total_size tensors) (length v)) as [H|H].
    + rewrite unpack_tensors_fits by assumption. discriminate.
    + destruct (@unpack_tensors_stops tensors v)
        as (k & e' & _ & He & _ & E); [now left|].
      rewrite E. congruence.
  - destruct (@unpack_tensors_stops tensors v)
      as (k & e' & _ & He & _ & E); [now right|].
    rewrite E. congruence.
Qed.

Lemma from_below_not_callable_expected (e : exn) :
  from_below e -> e <> callable_expected.
Proof. intros [->|[->|[u ->]]]; discriminate. Qed.

Lemma from_below_not_not_callable (e : exn) :
  from_below e -> e <> not_callable.
Proof. intros [->|[->|[u ->]]]; discriminate. Qed.

Lemma eval_exn (closure : pyobj Closure) (step_callback : pyobj StepCallback)
    (x : list V) (st st' : state) (e : exn) :
  _eval closure step_callback x st = Raised e st' -> from_below e.
Proof.
  rewrite eval_unfold.
  destruct (unpack_tensors _ x) as [vars [e0|]] eqn:Hun; cbv zeta.
  - intros [= <- _].
    destruct (unpack_tensors_exn _ _ Hun) as [->| ->];
      [now left | right; now left].
  - assert (Hpack : forall grads (loss : Loss) st1 st2 e1,
              match pack_tensors grads with
              | Ok packed => Done (loss, packed) st1
              | Err e2 => Raised e2 st2
              end = Raised e1 st' -> from_below e1).
    { intros grads loss st1 st2 e1.
      destruct (pack_tensors grads) eqn:Hp; [discriminate|].
      intros [= <- _]. left. exact (pack_tensors_exn _ Hp). }
    destruct (loss_gradients closure _) as [[loss grads] w2|u w2].
    + destruct step_callback as [| n |f]; try apply Hpack.
      destruct (f loss grads w2) as [[] w3|u w3]; [apply Hpack|].
      intros [= <- _]. right. right. now exists u.
    + intros [= <- _]. right. right. now exists u.
Qed.

Lemma drive_exn (closure : pyobj Closure)
    (step_callback : pyobj StepCallback) (s : solver) :
  forall st st' e,
    drive s (eval_func closure step_callback) st = Raised e st' ->
    from_below e.
Proof.
  induction s as [r|u|x k IH]; intros st st' e; cbn [drive].
  - discriminate.
  - intros [= <- _]. right. right. now exists u.
  - cbv [bind record eval_func].
    destruct (_eval closure step_callback x _) as [y st1|e1 st1] eqn:E.
    + apply IH.
    + intros [= <- _]. exact (eval_exn _ _ _ _ E).
Qed.

Lemma initial_parameters_flatten (st : state) :
  variables (now st) <> [] ->
  initial_parameters st = Done (flatten (variables (now st))) st.
Proof.
  intros H. cbv [initial_parameters bind get_variables].
  now rewrite (pack_tensors_flatten H).
Qed.

(** C3.  With a closure that is not callable, [minimize] raises the
    ValueError at once, in the state it was called in: the variables are
    not packed (whatever they are, also when packing them would raise) and
    the solver is not called.  With a callable closure this error is never
    raised. *)
Theorem minimize_checks_closure (closure : pyobj Closure)
    (step_callback : pyobj StepCallback) (kwargs : Kwargs) (st : state) :
  (callable closure = false ->
   minimize closure step_callback kwargs st = Raised callable_expected st) /\
  (callable closure = true ->
   forall e st',
     minimize closure step_callback kwargs st = Raised e st' ->
     e <> callable_expected).
Proof.
  unfold minimize. split; intros ->; cbn [negb]; [reflexivity|].
  intros e st'. cbv [bind call_solver record initial_parameters
                       get_variables].
  destruct (pack_tensors _) as [x0|e0] eqn:Hp; cbv [lift ret raise].
  - intros H. apply from_below_not_callable_expected.
    exact (drive_exn _ _ _ _ H).
  - intros [= <- _]. rewrite (pack_tensors_exn _ Hp). discriminate.
Qed.

(** C6 (as amended).  With a callable closure and a non-empty parameter
    collection, [minimize] packs the current values of the variables into
    the initial vector, calls the solver with it, with [jac=True] and with
    the caller's options, and returns what the solver returns. *)
Theorem minimize_delegates (closure : pyobj Closure)
    (step_callback : pyobj StepCallback) (kwargs : Kwargs) (st : state) :
  callable closure = true ->
  variables (now st) <> [] ->
  delegates_to_solver closure step_callback kwargs st.
Proof.
  intros Hc Hne. unfold delegates_to_solver. cbv zeta.
  split; [now apply initial_parameters_flatten|].
  unfold minimize. rewrite Hc. cbn [negb]. unfold bind at 1.
  rewrite initial_parameters_flatten by exact Hne. reflexivity.
Qed.

(** C10.  A step callback that is supplied but is not callable is skipped
    in every evaluation: once the loss and gradients are there the
    evaluation goes straight to the packing of the gradients, the error of
    calling an object that is not callable is never raised, in an
    evaluation or by [minimize], and all goes as it does without a
    callback. *)
Theorem non_callable_callback_skipped (closure : pyobj Closure)
    (step_callback : pyobj StepCallback) :
  callable step_callback = false ->
  (forall x st,
     _eval closure step_callback x st = _eval closure PyNone x st) /\
  (forall x st evs,
     calls (final (_eval closure step_callback x st)) = calls st ++ evs ->
     filter is_step_callback evs = []) /\
  (forall kwargs st,
     minimize closure step_callback kwargs st =
     minimize closure PyNone kwargs st) /\
  (forall x st vars loss grads w2,
     unpack_tensors (variables (now st)) x = (vars, None) ->
     loss_gradients closure (mkWorld vars (ext (now st))) =
       Returns (loss, grads) w2 ->
     _eval closure step_callback x st =
     match pack_tensors grads with
     | Ok packed =>
         Done (loss, packed)
           (mkState w2 (calls st ++ [CalledLossGradients vars]))
     | Err e =>
         Raised e (mkState w2 (calls st ++ [CalledLossGradients vars]))
     end) /\
  (forall x st e st',
     _eval closure step_callback x st = Raised e st' ->
     e <> not_callable) /\
  (forall kwargs st e st',
     minimize closure step_callback kwargs st = Raised e st' ->
     e <> not_callable).
Proof.
  intros Hnc.
  assert (Heq : forall x st,
             _eval closure step_callback x st = _eval closure PyNone x st).
  { intros x st. rewrite !eval_unfold.
    destruct step_callback; [reflexivity|reflexivity|discriminate]. }
  split; [exact Heq|]. split; [|split; [|split; [|split]]].
  - intros x st evs. rewrite Heq, eval_unfold.
    destruct (unpack_tensors _ x) as [vars [e|]]; cbv zeta.
    + cbn. intros H. rewrite <- (app_nil_r (calls st)) in H at 1.
      apply app_inv_head in H. now subst.
    + assert (Hlog : forall evs',
                calls st ++ [CalledLossGradients vars] = calls st ++ evs' ->
                filter is_step_callback evs' = [])
        by (intros evs' H; apply app_inv_head in H; now subst).
      destruct (loss_gradients closure _) as [[loss grads] w2|u w2];
        [destruct (pack_tensors grads)|]; cbn; apply Hlog.
  - intros kwargs st. unfold minimize.
    destruct (callable closure); cbn [negb]; [|reflexivity].
    cbv [bind call_solver record].
    destruct (initial_parameters st) as [x0 st1|e st1]; [|reflexivity].
    apply drive_ext. exact Heq.
  - intros x st vars loss grads w2 Hun Hlg.
    rewrite eval_unfold, Hun. cbv beta iota zeta. rewrite Hlg.
    destruct step_callback; [reflexivity|reflexivity|discriminate].
  - intros x st e st' H. apply from_below_not_not_callable.
    exact (eval_exn _ _ _ _ H).
  - intros kwargs st e st'. unfold minimize.
    destruct (callable closure); cbn [negb]; [|intros [= <- _]; discriminate].
    cbv [bind call_solver record initial_parameters get_variables].
    destruct (pack_tensors _) as [x0|e0] eqn:Hp; cbv [lift ret raise].
    + intros H. apply from_below_not_not_callable.
      exact (drive_exn _ _ _ _ H).
    + intros [= <- _]. rewrite (pack_tensors_exn _ Hp). discriminate.
Qed.

(** ** The variables after the solver has returned *)

Lemma last_evaluated_app (evs evs' : list event) :
  last_evaluated (evs ++ evs') =
  match last_evaluated evs' with
  | Some x => Some x
  | None => last_evaluated evs
  end.
Proof.
  induction evs as [|ev evs IH]; cbn [app last_evaluated].
  - now destruct (last_evaluated evs').
  - rewrite IH. now destruct (last_evaluated evs').
Qed.

Lemma unpack_tensors_shapes (tensors tensors' : list tensor) (v : list V) :
  unpack_tensors tensors v = (tensors', None) ->
  map (@shape) tensors' = map (@shape) tensors.
Proof.
  intros E. rewrite (unpack_tensors_ok _ _ E). apply shape_unflatten.
Qed.

Lemma unpack_tensors_same_shapes (a b tensors' : list tensor) (v : list V) :
  map (@shape) a = map (@shape) b ->
  unpack_tensors a v = (tensors', None) ->
  unpack_tensors b v = (tensors', None).
Proof.
  intros Hsh E. pose proof (unpack_tensors_ok_fits _ _ E) as H.
  pose proof (unpack_tensors_ok_ranked _ _ E) as Hr.
  rewrite (unpack_tensors_ok _ _ E).
  rewrite unpack_tensors_fits, <- Hsh; [reflexivity| |].
  - exact (@ranked_same_shapes a b Hsh Hr).
  - rewrite total_size_shapes, <- Hsh, <- total_size_shapes. exact H.
Qed.

Section Frame.

Variable closure : pyobj Closure.
Variable step_callback : pyobj StepCallback.
Hypothesis closure_keeps : keeps_variables (loss_gradients closure).
Hypothesis callback_keeps : callback_keeps_variables step_callback.

(** An evaluation that returns leaves in the variables what it unpacked,
    and asks nothing of the solver. *)
Lemma eval_done (x : list V) (st st' : state) (y : Loss * list V) :
  _eval closure step_callback x st = Done y st' ->
  unpack_tensors (variables (now st)) x = (variables (now st'), None) /\
  exists evs, calls st' = calls st ++ evs /\ last_evaluated evs = None.
Proof.
  rewrite eval_unfold.
  destruct (unpack_tensors _ x) as [vars [e0|]]; cbv zeta; [discriminate|].
  destruct (loss_gradients closure _) as [[loss grads] w2|u w2] eqn:Hlg;
    [|discriminate].
  apply closure_keeps in Hlg; cbn [variables] in Hlg.
  destruct step_callback as [| n |f].
  - destruct (pack_tensors grads); [|discriminate].
    intros [= _ <-]. cbn [now calls]. rewrite Hlg.
    split; [reflexivity|]. now eexists.
  - destruct (pack_tensors grads); [|discriminate].
    intros [= _ <-]. cbn [now calls]. rewrite Hlg.
    split; [reflexivity|]. now eexists.
  - destruct (f loss grads w2) as [[] w3|u w3] eqn:Hf; [|discriminate].
    apply callback_keeps in Hf.
    destruct (pack_tensors grads); [|discriminate].
    intros [= _ <-]. cbn [now calls]. rewrite Hf, Hlg.
    split; [reflexivity|]. rewrite <- app_assoc. now eexists.
Qed.

Lemma drive_last (s : solver) :
  forall st st' r,
    drive s (eval_func closure step_callback) st = Done r st' ->
    exists evs,
      calls st' = calls st ++ evs /\
      match last_evaluated evs with
      | None => variables (now st') = variables (now st)
      | Some x =>
          unpack_tensors (variables (now st)) x =
          (variables (now st'), None)
      end.
Proof.
  induction s as [r0|u|x k IH]; intros st st' r; cbn [drive].
  - intros [= _ <-]. exists []. now rewrite app_nil_r.
  - discriminate.
  - cbv [bind record eval_func].
    destruct (_eval closure step_callback x _) as [y st1|e1 st1] eqn:E;
      [|discriminate].
    intros Hk. apply eval_done in E. cbn [now calls] in E.
    destruct E as (Hun & evs1 & Hc1 & Hl1).
    destruct (IH _ _ _ _ Hk) as (evs2 & Hc2 & Hl2).
    exists (CalledFunc x :: evs1 ++ evs2). split.
    + rewrite Hc2, Hc1, <- !app_assoc. reflexivity.
    + cbn [last_evaluated]. rewrite last_evaluated_app, Hl1.
      destruct (last_evaluated evs2) as [x2|].
      * eapply unpack_tensors_same_shapes; [|exact Hl2].
        eapply unpack_tensors_shapes. exact Hun.
      * now rewrite Hl2.
Qed.

(** C9.  After the solver has returned, the variables hold what its last
    evaluation unpacked into them, or what they held before when it asked
    for none: [minimize] assigns nothing itself, the solver's result is not
    written back.  The loss computation and the callback are taken not to
    assign to the variables. *)
Theorem minimize_no_write_back (kwargs : Kwargs) (st st' : state)
    (r : OptimizeResult) :
  minimize closure step_callback kwargs st = Done r st' ->
  exists evs,
    calls st' = calls st ++ evs /\
    match last_evaluated evs with
    | None => variables (now st') = variables (now st)
    | Some x =>
        unpack_tensors (variables (now st)) x = (variables (now st'), None)
    end.
Proof.
  unfold minimize. destruct (callable closure); cbn [negb]; [|discriminate].
  cbv [bind call_solver record initial_parameters get_variables].
  destruct (pack_tensors _) as [x0|e0]; cbv [lift ret raise]; [|discriminate].
  intros H.
  destruct (drive_last _ _ H) as (evs & Hc & Hl). cbn [now calls] in *.
  exists (CalledSolver x0 true kwargs :: evs). split.
  - rewrite Hc, <- app_assoc. reflexivity.
  - cbn [last_evaluated]. destruct (last_evaluated evs); exact Hl.
Qed.

End Frame.

(** ** More on packing and unpacking *)

Lemma well_shaped_unflatten (shapes : list (list nat)) (v : list V) :
  list_sum (map num_elements shapes) <= length v ->
  Forall well_shaped (unflatten shapes v).
Proof.
  revert v. induction shapes as [|s rest IH]; intros v H; cbn [unflatten].
  - constructor.
  - cbn [map] in H. rewrite list_sum_cons in H. constructor.
    + unfold well_shaped. cbn [data shape]. rewrite length_firstn. lia.
    + apply IH. rewrite length_skipn. lia.
Qed.

Lemma unflatten_firstn (shapes : list (list nat)) (n : nat) (v : list V) :
  list_sum (map num_elements shapes) <= n ->
  unflatten shapes (firstn n v) = unflatten shapes v.
Proof.
  revert n v. induction shapes as [|s rest IH]; intros n v H;
    cbn [unflatten]; [reflexivity|].
  cbn [map] in H. rewrite list_sum_cons in H.
  rewrite firstn_firstn, skipn_firstn_comm, IH by lia.
  now replace (Nat.min (num_elements s) n) with (num_elements s) by lia.
Qed.

Lemma total_size_unflatten (tensors : list tensor) (v : list V) :
  total_size (unflatten (map (@shape) tensors) v) = total_size tensors.
Proof. now rewrite !total_size_shapes, shape_unflatten. Qed.

Lemma ranked_not_scalar (tensors : list tensor) :
  Forall ranked tensors -> Exists (fun t => shape t = []) tensors -> False.
Proof.
  intros Hr Hs.
  induction Hs as [t ts Ht|t ts _ IH]; inversion Hr; subst; auto.
Qed.

Lemma unpack_tensors_cases (tensors : list tensor) (v : list V) :
  (Forall ranked tensors /\
   total_size tensors <= length v /\
   unpack_tensors tensors v =
   (unflatten (map (@shape) tensors) v, None)) \/
  (exists k e,
     k < length tensors /\
     (e = InvalidArgumentError \/ e = slice_error) /\
     (Forall ranked tensors ->
      e = InvalidArgumentError /\ length v < total_size tensors) /\
     unpack_tensors tensors v =
     (unflatten (map (@shape) (firstn k tensors)) v ++ skipn k tensors,
      Some e)).
Proof.
  destruct (ranked_or_scalar tensors) as [Hr|Hs].
  - destruct (le_lt_dec (total_size tensors) (length v)) as [H|H].
    + left. split; [exact Hr|]. split; [exact H|].
      now apply unpack_tensors_fits.
    + right.
      destruct (@unpack_tensors_stops tensors v)
        as (k & e & Hk & He & Hre & E); [now left|].
      exists k, e. split; [exact Hk|]. split; [exact He|].
      split; [|exact E]. intros Hr'. split; [now apply Hre | exact H].
  - right.
    destruct (@unpack_tensors_stops tensors v)
      as (k & e & Hk & He & Hre & E); [now right|].
    exists k, e. split; [exact Hk|]. split; [exact He|].
    split; [|exact E]. intros Hr. destruct (ranked_not_scalar Hr Hs).
Qed.

(** X1.  Unpacking never changes a shape nor the number of tensors,
    whether it ends well or on an exception. *)
Theorem unpack_preserves_shapes (tensors : list tensor) (v : list V) :
  map (@shape) (fst (unpack_tensors tensors v)) = map (@shape) tensors.
Proof.
  destruct (unpack_tensors_cases tensors v)
    as [(_ & _ & E)|(k & e & _ & _ & _ & E)]; rewrite E; cbn [fst].
  - apply shape_unflatten.
  - rewrite map_app, shape_unflatten, <- map_app. now rewrite firstn_skipn.
Qed.

Lemma unpack_from_twice (tensors : list tensor) (v1 v2 : list V) :
  forall s,
    s + total_size tensors <= length v1 ->
    s + total_size tensors <= length v2 ->
    unpack_from (Integer s) (fst (unpack_from (Integer s) tensors v1)) v2 =
    unpack_from (Integer s) tensors v2.
Proof.
  unfold total_size.
  induction tensors as [|t ts IH]; intros s H1 H2; [reflexivity|].
  cbn [map] in H1, H2. rewrite list_sum_cons in H1, H2.
  destruct (shape t) as [|d tl] eqn:Esh.
  - rewrite (@unpack_from_cons_scalar (Integer s) t ts v1 Esh). cbn [fst].
    reflexivity.
  - assert (Hr : ranked t) by (unfold ranked; congruence).
    rewrite (@unpack_from_cons_fits s t ts v1 Hr) by lia. cbn [fst].
    set (t1 := {| shape := shape t;
                  data := firstn (size t) (skipn s v1) |}).
    assert (Hr1 : ranked t1) by exact Hr.
    assert (Hs1 : size t1 = size t) by reflexivity.
    rewrite (@unpack_from_cons_fits s t1 _ v2 Hr1) by (rewrite Hs1; lia).
    rewrite (@unpack_from_cons_fits s t ts v2 Hr) by lia.
    rewrite Hs1. subst t1. cbn [shape].
    rewrite IH by lia. reflexivity.
Qed.

(** X2.  Unpacking overwrites: of two vectors unpacked one after the
    other, both long enough, only the second one counts. *)
Theorem unpack_last_wins (tensors : list tensor) (v1 v2 : list V) :
  total_size tensors <= length v1 ->
  total_size tensors <= length v2 ->
  unpack_tensors (fst (unpack_tensors tensors v1)) v2 =
  unpack_tensors tensors v2.
Proof.
  intros H1 H2. unfold unpack_tensors. now apply unpack_from_twice.
Qed.

(** X3.  After an unpacking that ended well every tensor has as many
    elements as its shape says, whatever it held before. *)
Theorem unpack_well_shaped (tensors : list tensor) (v : list V) :
  snd (unpack_tensors tensors v) = None ->
  Forall well_shaped (fst (unpack_tensors tensors v)).
Proof.
  destruct (unpack_tensors tensors v) as [tensors' r] eqn:E. cbn [fst snd].
  intros ->. pose proof (unpack_tensors_ok_fits _ _ E) as H.
  rewrite (unpack_tensors_ok _ _ E).
  apply well_shaped_unflatten. now rewrite <- total_size_shapes.
Qed.

(** X4.  The shapes leave no trace in the packed vector: sequences of
    tensors with the same elements, whatever their shapes, pack alike
    (well-shaped or not, empty or not). *)
Theorem pack_ignores_shapes (ts1 ts2 : list tensor) :
  map (@data) ts1 = map (@data) ts2 ->
  pack_tensors ts1 = pack_tensors ts2.
Proof.
  intros H. destruct ts1 as [|t1 r1], ts2 as [|t2 r2]; try discriminate H.
  - reflexivity.
  - rewrite !pack_tensors_flatten by discriminate.
    unfold flatten. now rewrite H.
Qed.

(** X5.  Packing two non-empty sequences one after the other is packing
    each and appending the vectors. *)
Theorem pack_tensors_app (ts1 ts2 : list tensor) :
  ts1 <> [] ->
  ts2 <> [] ->
  exists v1 v2,
    pack_tensors ts1 = Ok v1 /\
    pack_tensors ts2 = Ok v2 /\
    pack_tensors (ts1 ++ ts2) = Ok (v1 ++ v2).
Proof.
  intros H1 H2. exists (flatten ts1), (flatten ts2).
  rewrite !pack_tensors_flatten; try assumption.
  - unfold flatten. now rewrite map_app, concat_app.
  - destruct ts1; [congruence|discriminate].
Qed.

(** X6.  [unpack_tensors] raises nothing but the InvalidArgumentError of
    the reshape or the TypeError of the slice: the assignment itself never
    fails.  For tensors of rank at least one it completes exactly when the
    vector is long enough, and raises the InvalidArgumentError
    otherwise. *)
Theorem unpack_exceptions (tensors : list tensor) (v : list V) :
  (forall e,
     snd (unpack_tensors tensors v) = Some e ->
     e = InvalidArgumentError \/ e = slice_error) /\
  (Forall ranked tensors ->
   (snd (unpack_tensors tensors v) = None <->
    total_size tensors <= length v) /\
   forall e,
     snd (unpack_tensors tensors v) = Some e <->
     e = InvalidArgumentError /\ length v < total_size tensors).
Proof.
  destruct (unpack_tensors_cases tensors v)
    as [(Hr & H & E)|(k & e0 & _ & He & Hre & E)]; rewrite E; cbn [snd].
  - split; [discriminate|]. intros _. split.
    + split; auto.
    + intros e. split; [discriminate | lia].
  - split; [intros e [= <-]; exact He|].
    intros Hr. destruct (Hre Hr) as [-> Hlt]. split.
    + split; [discriminate | lia].
    + intros e. split; [intros [= <-]; now split | now intros [-> _]].
Qed.

(** X15.  When the first tensor is a scalar, [unpack_tensors] raises the
    TypeError of the slice for every vector and assigns nothing, and so
    every evaluation stops before the loss computation, with the variables
    as they were. *)
Theorem scalar_first_raises (t : tensor) (rest : list tensor)
    (v : list V) :
  shape t = [] ->
  unpack_tensors (t :: rest) v = (t :: rest, Some slice_error) /\
  forall closure step_callback st,
    variables (now st) = t :: rest ->
    _eval closure step_callback v st = Raised slice_error st.
Proof.
  intros Esh.
  assert (E : unpack_tensors (t :: rest) v = (t :: rest, Some slice_error))
    by (unfold unpack_tensors; now rewrite unpack_from_cons_scalar).
  split; [exact E|].
  intros closure step_callback st Hv. rewrite eval_unfold, Hv, E.
  cbv beta iota zeta. rewrite <- Hv. destruct st as [[vars e] log].
  reflexivity.
Qed.

(** ** More on one evaluation *)

(** X7.  An evaluation at a vector that is too short stops in the
    unpacking: the loss computation and the callback are not called, but
    the variables before the one the unpacking stops at already hold their
    new values.  For variables of rank at least one the exception is the
    InvalidArgumentError of the reshape. *)
Theorem eval_short_vector (closure : pyobj Closure)
    (step_callback : pyobj StepCallback) (x : list V) (st : state) :
  length x < total_size (variables (now st)) ->
  exists k e,
    k < length (variables (now st)) /\
    (e = InvalidArgumentError \/ e = slice_error) /\
    (Forall ranked (variables (now st)) -> e = InvalidArgumentError) /\
    _eval closure step_callback x st =
    Raised e
      (mkState
         (mkWorld
            (unflatten (map (@shape) (firstn k (variables (now st)))) x
               ++ skipn k (variables (now st)))
            (ext (now st)))
         (calls st)).
Proof.
  intros H.
  destruct (@unpack_tensors_stops (variables (now st)) x)
    as (k & e & Hk & He & Hr & E); [now left|].
  exists k, e. repeat split; try assumption.
  rewrite eval_unfold, E. reflexivity.
Qed.

Lemma unpack_from_firstn (tensors : list tensor) (v : list V) :
  forall s n,
    s + total_size tensors <= n ->
    unpack_from (Integer s) tensors (firstn n v) =
    unpack_from (Integer s) tensors v.
Proof.
  unfold total_size.
  induction tensors as [|t ts IH]; intros s n H; [reflexivity|].
  cbn [map] in H. rewrite list_sum_cons in H.
  destruct (shape t) as [|d tl] eqn:Esh.
  - now rewrite !unpack_from_cons_scalar by exact Esh.
  - assert (Hr : ranked t) by (unfold ranked; congruence).
    cbn [unpack_from]. rewrite (np_prod_ranked Hr). cbn [add].
    rewrite !np_slice_from, skipn_firstn_comm, firstn_firstn.
    replace (Nat.min (size t) (n - s)) with (size t) by lia.
    destruct (tf_reshape _ _) as [t'|e]; [|reflexivity].
    destruct (assign t t') as [t''|e]; [|reflexivity].
    now rewrite IH by lia.
Qed.

(** X8.  An evaluation reads the first elements of its vector only, as
    many as the variables have together: what follows them is ignored. *)
Theorem eval_ignores_tail (closure : pyobj Closure)
    (step_callback : pyobj StepCallback) (x : list V) (st : state) :
  total_size (variables (now st)) <= length x ->
  _eval closure step_callback x st =
  _eval closure step_callback
    (firstn (total_size (variables (now st))) x) st.
Proof.
  intros H. rewrite !eval_unfold. unfold unpack_tensors.
  now rewrite unpack_from_firstn by lia.
Qed.

(** X9.  An evaluation at a vector that is long enough, into variables of
    rank at least one, does not depend on what the variables held before:
    two states that differ in the values of the variables only give the
    same outcome. *)
Theorem eval_forgets_values (closure : pyobj Closure)
    (step_callback : pyobj StepCallback) (x : list V)
    (vars1 vars2 : list tensor) (e : Ext) (log : list event) :
  Forall ranked vars1 ->
  map (@shape) vars1 = map (@shape) vars2 ->
  total_size vars1 <= length x ->
  _eval closure step_callback x (mkState (mkWorld vars1 e) log) =
  _eval closure step_callback x (mkState (mkWorld vars2 e) log).
Proof.
  intros Hr Hsh H. rewrite !eval_unfold. cbn [now variables ext calls].
  rewrite !unpack_tensors_fits, Hsh; try reflexivity; try assumption.
  - exact (@ranked_same_shapes vars1 vars2 Hsh Hr).
  - now rewrite total_size_shapes, <- Hsh, <- total_size_shapes.
Qed.

(** X10.  The initial vector of well-shaped variables of rank at least
    one, unpacked again, leaves the state as it is: the solver's
    evaluation at its initial point is an evaluation at the current values
    of the variables. *)
Theorem initial_vector_unpacks_to_itself (st : state) :
  variables (now st) <> [] ->
  Forall ranked (variables (now st)) ->
  Forall well_shaped (variables (now st)) ->
  exists x0,
    initial_parameters st = Done x0 st /\
    unpack_variables x0 st = Done tt st.
Proof.
  intros Hne Hr Hws. exists (flatten (variables (now st))).
  split; [now apply initial_parameters_flatten|].
  unfold unpack_variables.
  rewrite unpack_tensors_fits by (rewrite ?length_flatten; auto).
  rewrite <- (app_nil_r (flatten _)), unflatten_flatten by exact Hws.
  destruct st as [[vars e] log]. reflexivity.
Qed.

(** ** More on minimize *)

Lemma count_calls_app (kind : event -> bool) (evs evs' : list event) :
  count_calls kind (evs ++ evs') =
  count_calls kind evs + count_calls kind evs'.
Proof. unfold count_calls. now rewrite filter_app, length_app. Qed.

Lemma count_calls_cons (kind : event -> bool) (ev : event)
    (evs : list event) :
  count_calls kind (ev :: evs) =
  (if kind ev then 1 else 0) + count_calls kind evs.
Proof. unfold count_calls. cbn [filter]. now destruct (kind ev). Qed.

Lemma minimize_unfold (closure : pyobj Closure)
    (step_callback : pyobj StepCallback) (kwargs : Kwargs) (st : state) :
  minimize closure step_callback kwargs st =
  if callable closure
  then
    match variables (now st) with
    | [] => Raised InvalidArgumentError st
    | _ :: _ =>
        let x0 := flatten (variables (now st)) in
        drive (scipy_optimize_minimize x0 true kwargs)
          (eval_func closure step_callback)
          (mkState (now st) (calls st ++ [CalledSolver x0 true kwargs]))
    end
  else Raised callable_expected st.
Proof.
  unfold minimize. destruct (callable closure); cbn [negb]; [|reflexivity].
  unfold bind at 1.
  destruct (variables (now st)) as [|t ts] eqn:E.
  - cbv [initial_parameters bind get_variables]. now rewrite E.
  - rewrite initial_parameters_flatten by (rewrite E; discriminate).
    rewrite E. reflexivity.
Qed.

(** The calls of one evaluation: at most one of the loss computation,
    then at most one of the callback. *)
Lemma eval_calls (closure : pyobj Closure)
    (step_callback : pyobj StepCallback) (x : list V) (st : state) :
  exists evs,
    calls (final (_eval closure step_callback x st)) = calls st ++ evs /\
    count_calls is_minimize_call evs = 0 /\
    count_calls is_func_call evs = 0 /\
    count_calls is_step_callback evs <=
      count_calls is_loss_gradients_call evs /\
    count_calls is_loss_gradients_call evs <= 1 /\
    (callable step_callback = false ->
     count_calls is_step_callback evs = 0) /\
    (forall y st',
       _eval closure step_callback x st = Done y st' ->
       count_calls is_loss_gradients_call evs = 1 /\
       (callable step_callback = true ->
        count_calls is_step_callback evs = 1)).
Proof.
  rewrite eval_unfold.
  assert (Hnil : forall (l : list event), l = l ++ [])
    by (intros l; now rewrite app_nil_r).
  destruct (unpack_tensors _ x) as [vars [e0|]]; cbv zeta.
  { exists []. cbn. repeat split; auto; discriminate. }
  destruct (loss_gradients closure _) as [[loss grads] w2|u w2].
  2: { eexists. split; [reflexivity|].
       cbn. repeat split; auto; discriminate. }
  destruct step_callback as [| n |f].
  - eexists. split; [destruct (pack_tensors grads); reflexivity|].
    cbn. repeat split; auto; discriminate.
  - eexists. split; [destruct (pack_tensors grads); reflexivity|].
    cbn. repeat split; auto; discriminate.
  - exists [CalledLossGradients vars;
            CalledStepCallback loss (variables w2) grads].
    split.
    + destruct (f loss grads w2) as [[] w3|u w3];
        [destruct (pack_tensors grads)|]; cbn [final calls];
        now rewrite <- app_assoc.
    + cbn. repeat split; auto; discriminate.
Qed.

(** The calls of the solver's run. *)
Lemma drive_calls (closure : pyobj Closure)
    (step_callback : pyobj StepCallback) (s : solver) :
  forall st,
  exists evs,
    calls (final (drive s (eval_func closure step_callback) st)) =
      calls st ++ evs /\
    count_calls is_minimize_call evs = 0 /\
    count_calls is_step_callback evs <=
      count_calls is_loss_gradients_call evs /\
    count_calls is_loss_gradients_call evs <=
      count_calls is_func_call evs /\
    count_calls is_func_call evs <=
      count_calls is_loss_gradients_call evs + 1 /\
    (callable step_callback = false ->
     count_calls is_step_callback evs = 0) /\
    (forall r st',
       drive s (eval_func closure step_callback) st = Done r st' ->
       count_calls is_loss_gradients_call evs =
         count_calls is_func_call evs /\
       (callable step_callback = true ->
        count_calls is_step_callback evs = count_calls is_func_call evs)).
Proof.
  induction s as [r0|u|x k IH]; intros st.
  - exists []. cbn. rewrite app_nil_r. repeat split; auto.
  - exists []. cbn. rewrite app_nil_r. repeat split; auto; discriminate.
  - cbn [drive]. cbv [bind record].
    change (eval_func closure step_callback x)
      with (_eval closure step_callback x).
    destruct (eval_calls closure step_callback x
                (mkState (now st) (calls st ++ [CalledFunc x])))
      as (evs1 & Hc1 & Hm1 & Hf1 & Hcb1 & Hlg1 & Hnc1 & Hd1).
    destruct (_eval closure step_callback x _) as [y st1|e1 st1] eqn:E.
    + destruct (IH y st1)
        as (evs2 & Hc2 & Hm2 & Hcb2 & Hlg2 & Hf2 & Hnc2 & Hd2).
      destruct (Hd1 _ _ eq_refl) as [Hlg1' Hcb1'].
      cbn [final calls] in Hc1.
      exists (CalledFunc x :: evs1 ++ evs2). split.
      * rewrite Hc2, Hc1, <- !app_assoc. reflexivity.
      * rewrite !count_calls_cons, !count_calls_app. cbn.
        repeat split; try lia.
        -- intros Hnc. rewrite Hnc1, Hnc2 by exact Hnc. reflexivity.
        -- destruct (Hd2 _ _ H) as [Hlg2' _]. lia.
        -- intros Hcal. destruct (Hd2 _ _ H) as [_ Hcb2'].
           rewrite Hcb1', Hcb2' by exact Hcal. lia.
    + cbn [final calls] in Hc1 |- *.
      exists (CalledFunc x :: evs1). split.
      * rewrite Hc1, <- app_assoc. reflexivity.
      * rewrite !count_calls_cons. cbn.
        repeat split; try lia; try discriminate.
        intros Hnc. now rewrite Hnc1.
Qed.

(** X11.  However [minimize] ends, it calls the solver at most once, the
    loss computation at most once per evaluation the solver asks for, and
    the callback at most once per loss computation; only the last
    evaluation can be without its loss computation. *)
Theorem minimize_call_counts (closure : pyobj Closure)
    (step_callback : pyobj StepCallback) (kwargs : Kwargs) (st : state) :
  exists evs,
    calls (final (minimize closure step_callback kwargs st)) =
      calls st ++ evs /\
    count_calls is_minimize_call evs <= 1 /\
    count_calls is_step_callback evs <=
      count_calls is_loss_gradients_call evs /\
    count_calls is_loss_gradients_call evs <=
      count_calls is_func_call evs /\
    count_calls is_func_call evs <=
      count_calls is_loss_gradients_call evs + 1.
Proof.
  rewrite minimize_unfold.
  destruct (callable closure);
    [|exists []; cbn; rewrite app_nil_r; repeat split; lia].
  destruct (variables (now st)) as [|t ts];
    [exists []; cbn; rewrite app_nil_r; repeat split; lia|].
  cbv zeta. set (x0 := flatten (t :: ts)).
  destruct (drive_calls closure step_callback
              (scipy_optimize_minimize x0 true kwargs)
              (mkState (now st) (calls st ++ [CalledSolver x0 true kwargs])))
    as (evs & Hc & Hm & Hcb & Hlg & Hf & _).
  exists (CalledSolver x0 true kwargs :: evs). split.
  - rewrite Hc. cbn [calls]. now rewrite <- app_assoc.
  - rewrite !count_calls_cons. cbn. repeat split; lia.
Qed.

(** X12.  When [minimize] returns, it has called the solver once and the
    loss computation once for each evaluation the solver asked for; a
    callable step callback was called as often, one that is not callable
    never. *)
Theorem minimize_done_counts (closure : pyobj Closure)
    (step_callback : pyobj StepCallback) (kwargs : Kwargs)
    (st st' : state) (r : OptimizeResult) :
  minimize closure step_callback kwargs st = Done r st' ->
  exists evs,
    calls st' = calls st ++ evs /\
    count_calls is_minimize_call evs = 1 /\
    count_calls is_loss_gradients_call evs =
      count_calls is_func_call evs /\
    count_calls is_step_callback evs =
      if callable step_callback
      then count_calls is_func_call evs
      else 0.
Proof.
  rewrite minimize_unfold.
  destruct (callable closure); [|discriminate].
  destruct (variables (now st)) as [|t ts]; [discriminate|].
  cbv zeta. set (x0 := flatten (t :: ts)). intros H.
  destruct (drive_calls closure step_callback
              (scipy_optimize_minimize x0 true kwargs)
              (mkState (now st) (calls st ++ [CalledSolver x0 true kwargs])))
    as (evs & Hc & Hm & _ & _ & _ & Hnc & Hd).
  destruct (Hd _ _ H) as [Hlg Hcb]. rewrite H in Hc. cbn [final calls] in Hc.
  exists (CalledSolver x0 true kwargs :: evs). split.
  - rewrite Hc. now rewrite <- app_assoc.
  - rewrite !count_calls_cons. cbn. repeat split; try lia.
    destruct (callable step_callback); [now apply Hcb | now apply Hnc].
Qed.

(** X13.  [minimize] never changes the shape of a variable nor the number
    of variables, when the loss computation and the callback do not assign
    to them. *)
Theorem minimize_keeps_shapes (closure : pyobj Closure)
    (step_callback : pyobj StepCallback) (kwargs : Kwargs)
    (st st' : state) (r : OptimizeResult) :
  keeps_variables (loss_gradients closure) ->
  callback_keeps_variables step_callback ->
  minimize closure step_callback kwargs st = Done r st' ->
  map (@shape) (variables (now st')) = map (@shape) (variables (now st)).
Proof.
  intros Hlg Hcb. rewrite minimize_unfold.
  destruct (callable closure); [|discriminate].
  destruct (variables (now st)) as [|t ts] eqn:E; [discriminate|].
  cbv zeta. intros H.
  destruct (@drive_last closure step_callback Hlg Hcb _ _ _ _ H)
    as (evs & _ & Hl).
  cbn [now] in Hl. rewrite E in Hl.
  destruct (last_evaluated evs) as [x|].
  - exact (unpack_tensors_shapes _ _ Hl).
  - now rewrite Hl.
Qed.

(** X14.  After [minimize] has returned, the initial vector of a next run
    is the point of the last evaluation (its first elements, as many as
    the variables have), not the solver's result; it is the initial vector
    of this run when the solver asked for no evaluation. *)
Theorem minimize_then_initial_parameters (closure : pyobj Closure)
    (step_callback : pyobj StepCallback) (kwargs : Kwargs)
    (st st' : state) (r : OptimizeResult) :
  keeps_variables (loss_gradients closure) ->
  callback_keeps_variables step_callback ->
  minimize closure step_callback kwargs st = Done r st' ->
  exists evs,
    calls st' = calls st ++ evs /\
    initial_parameters st' =
    Done
      match last_evaluated evs with
      | Some x => firstn (total_size (variables (now st))) x
      | None => flatten (variables (now st))
      end st'.
Proof.
  intros Hlg Hcb. rewrite minimize_unfold.
  destruct (callable closure); [|discriminate].
  destruct (variables (now st)) as [|t ts] eqn:E; [discriminate|].
  cbv zeta. set (x0 := flatten (t :: ts)). intros H.
  destruct (@drive_last closure step_callback Hlg Hcb _ _ _ _ H)
    as (evs & Hc & Hl).
  cbn [now calls] in Hc, Hl. rewrite E in Hl.
  exists (CalledSolver x0 true kwargs :: evs). split.
  - rewrite Hc. now rewrite <- app_assoc.
  - cbn [last_evaluated].
    destruct (last_evaluated evs) as [x|].
    + pose proof (unpack_tensors_ok_fits _ _ Hl) as Hfit.
      apply unpack_tensors_ok in Hl.
      rewrite initial_parameters_flatten
        by (rewrite Hl; discriminate).
      rewrite Hl, flatten_unflatten, <- total_size_shapes;
        [reflexivity|].
      now rewrite <- total_size_shapes.
    + rewrite initial_parameters_flatten by (rewrite Hl; discriminate).
      now rewrite Hl.
Qed.

End Scipy.

Arguments PyNone {F}.
Arguments PyInt {F} n.
Arguments Returns {V U Ext A} a w.
Arguments Throws {V U Ext A} u w.
Arguments Finish {V U Loss OptimizeResult} r.
Arguments Done {V U Loss Kwargs Ext A} a st.
Arguments Raised {V U Loss Kwargs Ext A} e st.
Arguments InvalidArgumentError {U}.
Arguments callable_expected {U}.
Arguments not_callable {U}.
Arguments slice_error {U}.
Arguments External {U} u.
Arguments Ok {U A} a.
Arguments Err {U A} e.
Arguments pack_tensors {V U} tensors.
Arguments unpack_tensors {V U} to_tensors from_vector.
Arguments CalledFunc {V Loss Kwargs} x.
Arguments CalledLossGradients {V Loss Kwargs} vars.
Arguments CalledStepCallback {V Loss Kwargs} loss vars grads.

(** * A quadratic loss

    The development at work on integer tensors: the loss is the sum of the
    squares of all the elements, the callback keeps the losses it is shown,
    and the solver looks at its initial point once and returns the point a
    gradient step away without evaluating it. *)

Module Quadratic.

Open Scope Z_scope.

Definition a : tensor Z := mkTensor [2; 2]%nat [1; 2; 3; 4].
Definition b : tensor Z := mkTensor [3]%nat [5; 6; 7].

Definition sum_squares (v : list Z) : Z :=
  fold_right (fun z acc => z * z + acc) 0 v.

Definition gradient (t : tensor Z) : tensor Z :=
  mkTensor (shape t) (map (Z.mul 2) (data t)).

(** The closure [PyFunction true] computes the loss; [PyFunction false]
    is a closure that raises. *)
Definition loss_gradients (closure : pyobj bool) (w : world Z (list Z))
    : returned Z string (list Z) (Z * list (tensor Z)) :=
  match closure with
  | PyFunction true =>
      Returns (sum_squares (flatten (variables w)),
               map gradient (variables w)) w
  | _ => Throws "closure failed"%string w
  end.

Definition keep_loss : StepCallback Z string Z (list Z) :=
  fun loss grads w => Returns tt (mkWorld (variables w) (loss :: ext w)).

Definition failing_callback : StepCallback Z string Z (list Z) :=
  fun loss grads w => Throws "callback failed"%string w.

Definition one_step (x0 : list Z) (jac : bool) (kwargs : string)
    : solver Z string Z (list Z) :=
  Evaluate x0
    (fun y => Finish (map (fun p => fst p - snd p / 2) (combine x0 (snd y)))).

Definition st0 : state Z Z string (list Z) :=
  mkState (mkWorld [a; b] []) [].

Definition no_variables : state Z Z string (list Z) :=
  mkState (mkWorld [] []) [].

(** A scalar variable, as the first of two. *)
Definition c : tensor Z := mkTensor []%nat [5].

Definition scalar_first : state Z Z string (list Z) :=
  mkState (mkWorld [c; b] []) [].

(** A candidate vector, and the variables once it is unpacked. *)
Definition x : list Z := [7; 6; 5; 4; 3; 2; 1].
Definition at_x : list (tensor Z) :=
  [mkTensor [2; 2]%nat [7; 6; 5; 4]; mkTensor [3]%nat [3; 2; 1]].

Definition run (closure : pyobj bool)
    (step_callback : pyobj (StepCallback Z string Z (list Z)))
    (st : state Z Z string (list Z)) :=
  minimize loss_gradients one_step closure step_callback "L-BFGS-B"%string st.

Definition eval (closure : pyobj bool)
    (step_callback : pyobj (StepCallback Z string Z (list Z)))
    (x : list Z) (st : state Z Z string (list Z))
    : outcome Z string Z string (list Z) (Z * list Z) :=
  _eval loss_gradients closure step_callback x st.

End Quadratic.

Import Quadratic.

(** ** The theorems at work *)

Lemma well_shaped_a_b : Forall (@well_shaped Z) [a; b].
Proof.
  apply Forall_cons; [reflexivity|].
  apply Forall_cons; [reflexivity|apply Forall_nil].
Defined.

Lemma ranked_a_b : Forall (@ranked Z) [a; b].
Proof.
  apply Forall_cons; [discriminate|].
  apply Forall_cons; [discriminate|apply Forall_nil].
Defined.

Lemma pack_unpack_roundtrip_witness :
  [a; b] <> [] /\
  Forall (@ranked Z) [a; b] /\
  Forall (@well_shaped Z) [a; b] /\
  length [7; 6; 5; 4; 3; 2; 1]%Z = total_size [a; b] /\
  (@unpack_pack_restores Z string [a; b] /\
   @pack_unpack_restores Z string [a; b] [7; 6; 5; 4; 3; 2; 1]%Z).
Proof.
  split; [discriminate|].
  split; [exact ranked_a_b|].
  split; [exact well_shaped_a_b|].
  split; [reflexivity|].
  apply pack_unpack_roundtrip;
    [discriminate | exact ranked_a_b | exact well_shaped_a_b | reflexivity].
Defined.

Lemma pack_tensors_layout_witness :
  [a; b] <> [] /\
  Forall (@well_shaped Z) [a; b] /\
  @packs_flat Z string [a; b] /\
  length (flatten [a; b]) = 7%nat.
Proof.
  split; [discriminate|].
  split; [exact well_shaped_a_b|].
  destruct (@pack_tensors_layout Z string [a; b]) as (Hflat & _ & Hex);
    [discriminate | exact well_shaped_a_b |].
  split; [exact Hflat|].
  destruct Hex as [Hlen _]; [reflexivity | exact Hlen].
Defined.

Lemma unpack_short_vector_fails_witness :
  (length [9; 8; 7; 6; 5]%Z < total_size [a; b])%nat /\
  @unpack_fails Z string [a; b] [9; 8; 7; 6; 5]%Z /\
  Forall (@ranked Z) [a; b] /\
  (total_size [a; b] <= length x)%nat /\
  @unpack_tensors Z string [a; b] x = (at_x, None).
Proof.
  split; [vm_compute; lia|].
  split.
  - apply (proj1 (@unpack_short_vector_fails Z string [a; b]
                    [9; 8; 7; 6; 5]%Z)).
    vm_compute; lia.
  - split; [exact ranked_a_b|].
    split; [vm_compute; lia|].
    apply (proj2 (@unpack_short_vector_fails Z string [a; b] x));
      [exact ranked_a_b | vm_compute; lia].
Defined.

Lemma eval_steps_witness :
  Forall (@ranked Z) (variables (now st0)) /\
  length x = total_size (variables (now st0)) /\
  (forall loss w2,
     loss_gradients (PyFunction true)
       (mkWorld (unflatten (map (@shape Z) (variables (now st0))) x)
          (ext (now st0)))
     <> Returns (loss, []) w2) /\
  eval (PyFunction true) (PyFunction keep_loss) x st0 =
  eval_spec loss_gradients (PyFunction true) (PyFunction keep_loss) x st0.
Proof.
  split; [exact ranked_a_b|].
  split; [reflexivity|].
  split; [intros loss w2; discriminate|].
  apply (@eval_steps Z string Z string (list Z) bool loss_gradients);
    [exact ranked_a_b | reflexivity | intros loss w2; discriminate].
Defined.

Lemma step_callback_once_witness :
  @unpack_tensors Z string (variables (now st0)) x = (at_x, None) /\
  loss_gradients (PyFunction true) (mkWorld at_x []) =
    Returns (140, map gradient at_x) (mkWorld at_x []) /\
  calls (final (eval (PyFunction true) (PyFunction keep_loss) x st0)) =
    [CalledLossGradients at_x;
     CalledStepCallback 140 at_x (map gradient at_x)] /\
  now (final (eval (PyFunction true) (PyFunction keep_loss) x st0)) =
    mkWorld at_x [140].
Proof.
  split; [reflexivity|].
  split; [reflexivity|].
  apply (@step_callback_once Z string Z string (list Z) bool
           loss_gradients (PyFunction true) keep_loss x st0
           at_x 140 (map gradient at_x) (mkWorld at_x []));
    reflexivity.
Defined.

Lemma eval_errors_propagate_witness :
  @unpack_tensors Z string (variables (now st0)) x = (at_x, None) /\
  eval (PyFunction false) (PyFunction keep_loss) x st0 =
    Raised (External "closure failed"%string)
      (mkState (mkWorld at_x []) [CalledLossGradients at_x]) /\
  eval (PyFunction true) (PyFunction failing_callback) x st0 =
    Raised (External "callback failed"%string)
      (mkState (mkWorld at_x [])
         [CalledLossGradients at_x;
          CalledStepCallback 140 at_x (map gradient at_x)]).
Proof.
  split; [reflexivity|].
  split.
  - apply (proj1 (@eval_errors_propagate Z string Z string (list Z) bool
                    loss_gradients (PyFunction false) (PyFunction keep_loss)
                    x st0 at_x eq_refl)).
    reflexivity.
  - apply (proj2 (@eval_errors_propagate Z string Z string (list Z) bool
                    loss_gradients (PyFunction true)
                    (PyFunction failing_callback) x st0 at_x eq_refl)
             140 (map gradient at_x) (mkWorld at_x []) failing_callback);
      reflexivity.
Defined.

Lemma non_callable_callback_skipped_witness :
  callable (PyInt 3 : pyobj (StepCallback Z string Z (list Z))) = false /\
  eval (PyFunction true) (PyInt 3) x st0 =
    eval (PyFunction true) PyNone x st0 /\
  run (PyFunction true) (PyInt 3) st0 = run (PyFunction true) PyNone st0 /\
  eval (PyFunction true) (PyInt 3) x st0 =
    Done (140, [14; 12; 10; 8; 6; 4; 2])
      (mkState (mkWorld at_x []) [CalledLossGradients at_x]) /\
  (forall e st',
     run (PyFunction true) (PyInt 3) st0 = Raised e st' ->
     e <> not_callable).
Proof.
  split; [reflexivity|].
  destruct (@non_callable_callback_skipped Z string Z (list Z) string
              (list Z) bool loss_gradients one_step (PyFunction true)
              (PyInt 3) eq_refl)
    as (Heval & _ & Hrun & Hskip & _ & Hnever).
  split; [apply Heval|]. split; [apply Hrun|]. split.
  - apply (Hskip x st0 at_x 140 (map gradient at_x) (mkWorld at_x []));
      reflexivity.
  - apply Hnever.
Defined.

Lemma minimize_checks_closure_witness :
  callable (PyNone : pyobj bool) = false /\
  run PyNone (PyFunction keep_loss) st0 = Raised callable_expected st0 /\
  run PyNone (PyFunction keep_loss) no_variables =
    Raised callable_expected no_variables /\
  callable (PyFunction true) = true /\
  (forall e st',
     run (PyFunction true) (PyFunction keep_loss) no_variables =
       Raised e st' ->
     e <> callable_expected).
Proof.
  split; [reflexivity|].
  split.
  { apply (proj1 (@minimize_checks_closure Z string Z (list Z) string
                    (list Z) bool loss_gradients one_step PyNone
                    (PyFunction keep_loss) "L-BFGS-B"%string st0)).
    reflexivity. }
  split.
  { apply (proj1 (@minimize_checks_closure Z string Z (list Z) string
                    (list Z) bool loss_gradients one_step PyNone
                    (PyFunction keep_loss) "L-BFGS-B"%string no_variables)).
    reflexivity. }
  split; [reflexivity|].
  apply (proj2 (@minimize_checks_closure Z string Z (list Z) string
                  (list Z) bool loss_gradients one_step (PyFunction true)
                  (PyFunction keep_loss) "L-BFGS-B"%string no_variables)).
  reflexivity.
Defined.

Lemma minimize_delegates_witness :
  callable (PyFunction true) = true /\
  variables (now st0) <> [] /\
  delegates_to_solver loss_gradients one_step (PyFunction true)
    (PyFunction keep_loss) "L-BFGS-B"%string st0.
Proof.
  split; [reflexivity|].
  split; [discriminate|].
  apply minimize_delegates; [reflexivity | discriminate].
Defined.

Lemma closure_keeps_variables :
  keeps_variables (loss_gradients (PyFunction true)).
Proof. intros w r w' [= _ <-]. reflexivity. Defined.

Lemma keep_loss_keeps_variables :
  callback_keeps_variables (PyFunction keep_loss).
Proof. intros loss grads w r w' [= _ <-]. reflexivity. Defined.

Lemma minimize_no_write_back_witness :
  keeps_variables (loss_gradients (PyFunction true)) /\
  callback_keeps_variables (PyFunction keep_loss) /\
  run (PyFunction true) (PyFunction keep_loss) st0 =
    Done [0; 0; 0; 0; 0; 0; 0]
      (final (run (PyFunction true) (PyFunction keep_loss) st0)) /\
  exists evs,
    calls (final (run (PyFunction true) (PyFunction keep_loss) st0)) =
      calls st0 ++ evs /\
    match last_evaluated evs with
    | None =>
        variables
          (now (final (run (PyFunction true) (PyFunction keep_loss) st0))) =
        variables (now st0)
    | Some x' =>
        @unpack_tensors Z string (variables (now st0)) x' =
        (variables
           (now (final (run (PyFunction true) (PyFunction keep_loss) st0))),
         None)
    end.
Proof.
  split; [exact closure_keeps_variables|].
  split; [exact keep_loss_keeps_variables|].
  split; [reflexivity|].
  apply (@minimize_no_write_back Z string Z (list Z) string (list Z) bool
           loss_gradients one_step (PyFunction true) (PyFunction keep_loss)
           closure_keeps_variables keep_loss_keeps_variables
           "L-BFGS-B"%string st0 _ [0; 0; 0; 0; 0; 0; 0]).
  reflexivity.
Defined.

(** ** Where the specification and the program part *)

(** Without tensors nothing is packed: the concatenation raises, and
    neither round trip goes through. *)
Lemma roundtrip_fails_without_tensors :
  Forall (@well_shaped Z) [] /\
  length (@nil Z) = total_size (@nil (tensor Z)) /\
  @pack_tensors Z string [] = Err InvalidArgumentError /\
  ~ @unpack_pack_restores Z string [] /\
  ~ @pack_unpack_restores Z string [] [].
Proof.
  split; [apply Forall_nil|].
  split; [reflexivity|].
  split; [reflexivity|].
  split.
  - intros (packed & H & _). discriminate H.
  - intros (tensors' & H & _ & Hpack).
    injection H as <-. discriminate Hpack.
Qed.

Lemma pack_fails_without_tensors :
  @pack_tensors Z string [] = Err InvalidArgumentError /\
  ~ @packs_flat Z string [].
Proof.
  split; [reflexivity|].
  intros (flats & tensors_vector & _ & _ & _ & _ & H). discriminate H.
Qed.

(** A vector longer than the tensors need is accepted: its first elements
    are assigned and the others are ignored. *)
Lemma unpack_long_vector_accepted :
  length [9; 8; 7; 6; 5; 4; 3; 2; 1]%Z <> total_size [a; b] /\
  @unpack_tensors Z string [a; b] [9; 8; 7; 6; 5; 4; 3; 2; 1]%Z =
    ([mkTensor [2; 2]%nat [9; 8; 7; 6]; mkTensor [3]%nat [5; 4; 3]]%Z,
     None) /\
  ~ @unpack_fails Z string [a; b] [9; 8; 7; 6; 5; 4; 3; 2; 1]%Z.
Proof.
  split; [discriminate|].
  split; [reflexivity|].
  intros (e & H). discriminate H.
Qed.

(** Without variables [minimize] stops at the initial vector: the solver
    is not called. *)
Lemma minimize_without_variables :
  callable (PyFunction true) = true /\
  run (PyFunction true) PyNone no_variables =
    Raised InvalidArgumentError no_variables /\
  ~ delegates_to_solver loss_gradients one_step (PyFunction true) PyNone
      "L-BFGS-B"%string no_variables.
Proof.
  split; [reflexivity|].
  split; [reflexivity|].
  intros [H _]. discriminate H.
Qed.

(** Without variables an evaluation at the empty vector computes the
    loss and then raises in the packing of the gradients: nothing is
    returned. *)
Lemma eval_without_variables :
  length (@nil Z) = total_size (variables (now no_variables)) /\
  eval (PyFunction true) PyNone [] no_variables =
    Raised InvalidArgumentError
      (mkState (mkWorld [] []) [CalledLossGradients []]) /\
  eval (PyFunction true) PyNone [] no_variables <>
    eval_spec loss_gradients (PyFunction true) PyNone [] no_variables.
Proof.
  split; [reflexivity|].
  split; [reflexivity|].
  discriminate.
Qed.

(** A scalar variable is not unpacked: the TypeError of the slice. *)
Example scalar_not_unpacked :
  @unpack_tensors Z string [c] [9]%Z = ([c], Some slice_error) /\
  @pack_tensors Z string [c] = Ok [5]%Z.
Proof. split; reflexivity. Qed.

(** The solver's result is not written back: after the run the variables
    hold the point of the one evaluation, not the returned point. *)
Example result_not_written_back :
  exists st',
    run (PyFunction true) (PyFunction keep_loss) st0 =
      Done [0; 0; 0; 0; 0; 0; 0]%Z st' /\
    flatten (variables (now st')) = [1; 2; 3; 4; 5; 6; 7]%Z /\
    ext (now st') = [140]%Z.
Proof.
  exists (final (run (PyFunction true) (PyFunction keep_loss) st0)).
  split; [reflexivity|]. split; reflexivity.
Qed.

(** ** The further theorems at work *)

Lemma unpack_last_wins_witness :
  (total_size [a; b] <= length [9; 8; 7; 6; 5; 4; 3; 2; 1]%Z)%nat /\
  (total_size [a; b] <= length x)%nat /\
  @unpack_tensors Z string
    (fst (@unpack_tensors Z string [a; b] [9; 8; 7; 6; 5; 4; 3; 2; 1]%Z)) x =
  @unpack_tensors Z string [a; b] x.
Proof.
  split; [vm_compute; lia|].
  split; [vm_compute; lia|].
  apply unpack_last_wins; vm_compute; lia.
Defined.

Lemma unpack_well_shaped_witness :
  snd (@unpack_tensors Z string [a; b] x) = None /\
  Forall (@well_shaped Z) (fst (@unpack_tensors Z string [a; b] x)).
Proof.
  split; [reflexivity|].
  apply unpack_well_shaped. reflexivity.
Defined.

Lemma pack_ignores_shapes_witness :
  map (@data Z) [a; b] =
    map (@data Z) [mkTensor [4]%nat [1; 2; 3; 4];
                   mkTensor [3; 1]%nat [5; 6; 7]] /\
  @pack_tensors Z string [a; b] =
  @pack_tensors Z string [mkTensor [4]%nat [1; 2; 3; 4];
                          mkTensor [3; 1]%nat [5; 6; 7]].
Proof.
  split; [reflexivity|].
  apply pack_ignores_shapes. reflexivity.
Defined.

Lemma pack_tensors_app_witness :
  [a] <> [] /\
  [b] <> [] /\
  exists v1 v2,
    @pack_tensors Z string [a] = Ok v1 /\
    @pack_tensors Z string [b] = Ok v2 /\
    @pack_tensors Z string ([a] ++ [b]) = Ok (v1 ++ v2).
Proof.
  split; [discriminate|].
  split; [discriminate|].
  apply pack_tensors_app; discriminate.
Defined.

Lemma unpack_exceptions_witness :
  Forall (@ranked Z) [a; b] /\
  (snd (@unpack_tensors Z string [a; b] x) = None <->
   (total_size [a; b] <= length x)%nat) /\
  snd (@unpack_tensors Z string [a; b] [9; 8; 7; 6; 5]%Z) =
    Some InvalidArgumentError.
Proof.
  split; [exact ranked_a_b|].
  split.
  - apply (proj2 (@unpack_exceptions Z string [a; b] x)). exact ranked_a_b.
  - apply (proj2 (@unpack_exceptions Z string [a; b] [9; 8; 7; 6; 5]%Z)
             ranked_a_b).
    split; [reflexivity | vm_compute; lia].
Defined.

Lemma scalar_first_raises_witness :
  shape c = [] /\
  @unpack_tensors Z string [c; b] [9; 8; 7; 6]%Z =
    ([c; b], Some slice_error) /\
  eval (PyFunction true) (PyFunction keep_loss) [9; 8; 7; 6]%Z
    scalar_first =
  Raised slice_error scalar_first.
Proof.
  split; [reflexivity|].
  destruct (@scalar_first_raises Z string Z string (list Z) bool
              loss_gradients c [b] [9; 8; 7; 6]%Z eq_refl) as [Hun Hev].
  split; [exact Hun|].
  apply Hev. reflexivity.
Defined.

Lemma eval_short_vector_witness :
  (length [9; 8; 7; 6; 5]%Z < total_size (variables (now st0)))%nat /\
  exists k e,
    (k < length (variables (now st0)))%nat /\
    (e = InvalidArgumentError \/ e = slice_error) /\
    (Forall (@ranked Z) (variables (now st0)) ->
     e = InvalidArgumentError) /\
    eval (PyFunction true) (PyFunction keep_loss) [9; 8; 7; 6; 5]%Z st0 =
    Raised e
      (mkState
         (mkWorld
            (unflatten (map (@shape Z) (firstn k (variables (now st0))))
               [9; 8; 7; 6; 5]%Z
               ++ skipn k (variables (now st0)))
            (ext (now st0)))
         (calls st0)).
Proof.
  split; [vm_compute; lia|].
  apply (@eval_short_vector Z string Z string (list Z) bool loss_gradients).
  vm_compute; lia.
Defined.

Lemma eval_ignores_tail_witness :
  (total_size (variables (now st0))
   <= length [7; 6; 5; 4; 3; 2; 1; 0; 0]%Z)%nat /\
  eval (PyFunction true) (PyFunction keep_loss)
    [7; 6; 5; 4; 3; 2; 1; 0; 0]%Z st0 =
  eval (PyFunction true) (PyFunction keep_loss)
    (firstn (total_size (variables (now st0)))
       [7; 6; 5; 4; 3; 2; 1; 0; 0]%Z) st0.
Proof.
  split; [vm_compute; lia|].
  apply (@eval_ignores_tail Z string Z string (list Z) bool loss_gradients).
  vm_compute; lia.
Defined.

Lemma eval_forgets_values_witness :
  Forall (@ranked Z) [a; b] /\
  map (@shape Z) [a; b] = map (@shape Z) at_x /\
  (total_size [a; b] <= length x)%nat /\
  eval (PyFunction true) (PyFunction keep_loss) x
    (mkState (mkWorld [a; b] []) []) =
  eval (PyFunction true) (PyFunction keep_loss) x
    (mkState (mkWorld at_x []) []).
Proof.
  split; [exact ranked_a_b|].
  split; [reflexivity|].
  split; [vm_compute; lia|].
  apply (@eval_forgets_values Z string Z string (list Z) bool
           loss_gradients);
    [exact ranked_a_b | reflexivity | vm_compute; lia].
Defined.

Lemma initial_vector_unpacks_to_itself_witness :
  variables (now st0) <> [] /\
  Forall (@ranked Z) (variables (now st0)) /\
  Forall (@well_shaped Z) (variables (now st0)) /\
  exists x0,
    @initial_parameters Z string Z string (list Z) st0 = Done x0 st0 /\
    @unpack_variables Z string Z string (list Z) x0 st0 = Done tt st0.
Proof.
  split; [discriminate|].
  split; [exact ranked_a_b|].
  split; [exact well_shaped_a_b|].
  apply initial_vector_unpacks_to_itself;
    [discriminate | exact ranked_a_b | exact well_shaped_a_b].
Defined.

Lemma minimize_done_counts_witness :
  run (PyFunction true) (PyFunction keep_loss) st0 =
    Done [0; 0; 0; 0; 0; 0; 0]
      (final (run (PyFunction true) (PyFunction keep_loss) st0)) /\
  exists evs,
    calls (final (run (PyFunction true) (PyFunction keep_loss) st0)) =
      calls st0 ++ evs /\
    count_calls (@is_minimize_call Z Z string) evs = 1%nat /\
    count_calls (@is_loss_gradients_call Z Z string) evs =
      count_calls (@is_func_call Z Z string) evs /\
    count_calls (@is_step_callback Z Z string) evs =
      if callable (PyFunction keep_loss)
      then count_calls (@is_func_call Z Z string) evs
      else 0%nat.
Proof.
  split; [reflexivity|].
  apply (@minimize_done_counts Z string Z (list Z) string (list Z) bool
           loss_gradients one_step (PyFunction true) (PyFunction keep_loss)
           "L-BFGS-B"%string st0 _ [0; 0; 0; 0; 0; 0; 0]).
  reflexivity.
Defined.

Lemma minimize_keeps_shapes_witness :
  keeps_variables (loss_gradients (PyFunction true)) /\
  callback_keeps_variables (PyFunction keep_loss) /\
  run (PyFunction true) (PyFunction keep_loss) st0 =
    Done [0; 0; 0; 0; 0; 0; 0]
      (final (run (PyFunction true) (PyFunction keep_loss) st0)) /\
  map (@shape Z)
    (variables
       (now (final (run (PyFunction true) (PyFunction keep_loss) st0)))) =
  map (@shape Z) (variables (now st0)).
Proof.
  split; [exact closure_keeps_variables|].
  split; [exact keep_loss_keeps_variables|].
  split; [reflexivity|].
  apply (@minimize_keeps_shapes Z string Z (list Z) string (list Z) bool
           loss_gradients one_step (PyFunction true) (PyFunction keep_loss)
           "L-BFGS-B"%string st0 _ [0; 0; 0; 0; 0; 0; 0]
           closure_keeps_variables keep_loss_keeps_variables).
  reflexivity.
Defined.

Lemma minimize_then_initial_parameters_witness :
  keeps_variables (loss_gradients (PyFunction true)) /\
  callback_keeps_variables (PyFunction keep_loss) /\
  run (PyFunction true) (PyFunction keep_loss) st0 =
    Done [0; 0; 0; 0; 0; 0; 0]
      (final (run (PyFunction true) (PyFunction keep_loss) st0)) /\
  exists evs,
    calls (final (run (PyFunction true) (PyFunction keep_loss) st0)) =
      calls st0 ++ evs /\
    @initial_parameters Z string Z string (list Z)
      (final (run (PyFunction true) (PyFunction keep_loss) st0)) =
    Done
      match last_evaluated evs with
      | Some x' => firstn (total_size (variables (now st0))) x'
      | None => flatten (variables (now st0))
      end
      (final (run (PyFunction true) (PyFunction keep_loss) st0)).
Proof.
  split; [exact closure_keeps_variables|].
  split; [exact keep_loss_keeps_variables|].
  split; [reflexivity|].
  apply (@minimize_then_initial_parameters Z string Z (list Z) string
           (list Z) bool loss_gradients one_step (PyFunction true)
           (PyFunction keep_loss) "L-BFGS-B"%string st0 _
           [0; 0; 0; 0; 0; 0; 0]
           closure_keeps_variables keep_loss_keeps_variables).
  reflexivity.
Defined.
